(** * EEG preprocessing: trial segmentation, spectral transform, averaging

    A shallow embedding of [New Code/preprocess.py] and the properties its
    specification states about it.

    Conventions of the embedding.
    - A numpy array is a shape together with its elements in C (row-major)
      order, the way numpy stores a contiguous array.
    - EEG samples are exact rationals ([Q]); the rounding of IEEE floats is
      not part of the model.  numpy's [nan] (the mean of an empty selection)
      is the [None] of [option Q].
    - A Python exception is a value of [exn]; a call that may raise returns a
      [result].  Code that also writes to the configuration dictionary runs
      in a state-and-exception monad whose state survives a raise, as a
      mutated Python dict does.
    - [np.asarray] of arrays of different shapes raises [ValueError]
      (numpy 1.24 and later). *)

From Stdlib Require Import ZArith QArith List String Lia Permutation.
From stdpp Require Import gmap strings list pretty.

Close Scope Q_scope.
Open Scope string_scope.
Open Scope list_scope.
Open Scope nat_scope.

(** ** Exceptions and results *)

Inductive exn : Type :=
| KeyError (key : string)
| ValueError (msg : string)
| IndexError
| TypeError
| AttributeError
| NameError (name : string)
| UnboundLocalError (name : string).

Inductive result (A : Type) : Type :=
| Ok (a : A)
| Raise (e : exn).

Arguments Ok {A} a.
Arguments Raise {A} e.

#[global] Instance result_ret : MRet result := fun A a => Ok a.

#[global] Instance result_bind : MBind result := fun A B k r =>
  match r with
  | Ok a => k a
  | Raise e => Raise e
  end.

(** [for x in l: ys.append(f(x))], stopping at the first exception. *)
Fixpoint mapM {A B} (f : A -> result B) (l : list A) : result (list B) :=
  match l with
  | [] => Ok []
  | x :: l' =>
      match f x with
      | Raise e => Raise e
      | Ok y =>
          match mapM f l' with
          | Raise e => Raise e
          | Ok ys => Ok (y :: ys)
          end
      end
  end.

(** ** Python values held by a configuration dictionary *)

Inductive pyval : Type :=
| VBool (b : bool)
| VNum (q : Q)
| VInts (l : list Z).

(** Truth value of an object in an [if]. *)
Definition truthy (v : pyval) : bool :=
  match v with
  | VBool b => b
  | VNum q => negb (Qnum q =? 0)%Z
  | VInts l => negb (bool_decide (l = []))
  end.

(** [a * b] followed by [int(...)]: booleans count as 0 and 1, and a list
    operand ends in [TypeError] whichever way it fails. *)
Definition as_number (v : pyval) : result Q :=
  match v with
  | VBool b => Ok (if b then 1%Q else 0%Q)
  | VNum q => Ok q
  | VInts _ => Raise TypeError
  end.

(** [int(q)]: truncation toward zero. *)
Definition py_int (q : Q) : Z := Z.quot (Qnum q) (Z.pos (Qden q)).

Definition getitem (config : gmap string pyval) (key : string) : result pyval :=
  match config !! key with
  | Some v => Ok v
  | None => Raise (KeyError key)
  end.

(** ** numpy arrays *)

Record ndarray (A : Type) : Type := mk_ndarray {
  shape : list nat;
  flat : list A
}.

Arguments mk_ndarray {A} shape flat.
Arguments shape {A} _.
Arguments flat {A} _.

Definition size_of (s : list nat) : nat := foldr Nat.mul 1 s.

Definition wf {A} (a : ndarray A) : Prop := length (flat a) = size_of (shape a).

(** The [i]-th run of [sz] consecutive elements. *)
Definition block {A} (sz i : nat) (l : list A) : list A := take sz (drop (i * sz) l).

Definition blocks {A} (n sz : nat) (l : list A) : list (list A) :=
  map (fun i => block sz i l) (seq 0 n).

(** [a.shape[k]] *)
Definition shape_at {A} (a : ndarray A) (k : nat) : result nat :=
  match shape a !! k with
  | Some d => Ok d
  | None => Raise IndexError
  end.

(** [a[i]] for an integer [i] within range: the [i]-th sub-array along the
    first axis. *)
Definition np_index {A} (a : ndarray A) (i : nat) : result (ndarray A) :=
  match shape a with
  | [] => Raise IndexError
  | n :: rest =>
      if i <? n then Ok (mk_ndarray rest (block (size_of rest) i (flat a)))
      else Raise IndexError
  end.

(** A slice bound of Python: a negative bound counts from the end, and the
    result is clamped to the sequence. *)
Definition slice_bound (n : nat) (i : Z) : nat :=
  if (i <? 0)%Z then Z.to_nat (i + Z.of_nat n) else Nat.min (Z.to_nat i) n.

(** [l[start:stop]] *)
Definition py_slice {A} (l : list A) (start stop : Z) : list A :=
  let s := slice_bound (length l) start in
  let e := slice_bound (length l) stop in
  take (e - s) (drop s l).

(** [a[:, start:stop]] (and [a[:, start:stop, :]]): the second axis is cut,
    every other axis kept.  An array of rank below 2 has too few axes. *)
Definition slice_axis1 {A} (a : ndarray A) (start stop : Z) : result (ndarray A) :=
  match shape a with
  | c :: s :: rest =>
      let r := size_of rest in
      let lo := slice_bound s start in
      let hi := slice_bound s stop in
      Ok (mk_ndarray
            (c :: (hi - lo) :: rest)
            (concat (map (fun blk => take ((hi - lo) * r) (drop (lo * r) blk))
                         (blocks c (s * r) (flat a)))))
  | _ => Raise IndexError
  end.

(** [np.asarray(l)] for a Python list [l] of arrays. *)
Definition np_asarray {A} (l : list (ndarray A)) : result (ndarray A) :=
  match l with
  | [] => Ok (mk_ndarray [0] [])
  | a :: _ =>
      if forallb (fun b => bool_decide (shape b = shape a)) l
      then Ok (mk_ndarray (length l :: shape a) (concat (map flat l)))
      else Raise (ValueError "inhomogeneous shape")
  end.

(** [a.resize(new_shape)] in place: the elements are kept in order, cut or
    filled with zeros up to the new size. *)
Definition resize {A} (zero : A) (a : ndarray A) (new_shape : list nat) : ndarray A :=
  let n := size_of new_shape in
  mk_ndarray new_shape (take n (flat a ++ replicate (n - length (flat a)) zero)).

(** The elements of [l] at which [mask] is true. *)
Fixpoint select {A} (mask : list bool) (l : list A) : list A :=
  match mask, l with
  | b :: mask', x :: l' => if b then x :: select mask' l' else select mask' l'
  | _, _ => []
  end.

(** [a[mask]] for a 1-D boolean array [mask]: its length must be the length
    of the first axis. *)
Definition np_mask {A} (a : ndarray A) (mask : list bool) : result (ndarray A) :=
  match shape a with
  | [] => Raise IndexError
  | n :: rest =>
      if length mask =? n
      then let picked := select mask (blocks n (size_of rest) (flat a)) in
           Ok (mk_ndarray (length picked :: rest) (concat picked))
      else Raise IndexError
  end.

(** [a[b]] for a Python [bool]: a new first axis of length 1 or 0. *)
Definition np_index_bool {A} (a : ndarray A) (b : bool) : ndarray A :=
  if b then mk_ndarray (1 :: shape a) (flat a)
  else mk_ndarray (0 :: shape a) [].

(** [a.squeeze()] *)
Definition squeeze {A} (a : ndarray A) : ndarray A :=
  mk_ndarray (filter (fun d => d ≠ 1) (shape a)) (flat a).

(** ** Recordings *)

(** What the code reads of an [mne.io.Raw] object: [get_data()] (channels by
    samples), [info['sfreq']], [ch_names], and the rows
    (sample, previous value, label) that [mne.find_events] returns for it. *)
Record Raw : Type := mk_Raw {
  n_channels : nat;
  n_times : nat;
  samples : list Q;
  sfreq : Q;
  ch_names : list string;
  found_events : list (Z * Z * Z)
}.

Definition get_data (r : Raw) : ndarray Q :=
  mk_ndarray [n_channels r; n_times r] (samples r).

Definition raw_wf (r : Raw) : Prop := length (samples r) = n_channels r * n_times r.

(** [l[i]] for a non-negative index. *)
Definition list_getitem {A} (l : list A) (i : nat) : result A :=
  match l !! i with
  | Some x => Ok x
  | None => Raise IndexError
  end.

(** ** Trial segmentation *)

(** [int(config['sampling_freq'] * config['length_trial'])] *)
Definition trial_samples (config : gmap string pyval) : result Z :=
  sf ← getitem config "sampling_freq";
  lt ← getitem config "length_trial";
  a ← as_number sf;
  b ← as_number lt;
  Ok (py_int (Qmult a b)).

(** One pass of the loop of [divide_by_event]. *)
Definition event_trial (run_data : ndarray Q) (events : list Z)
    (config : gmap string pyval) (i : nat) : result (ndarray Q) :=
  trial ←
    (if i =? length events - 1
     then e ← list_getitem events i; slice_axis1 run_data e (-1)
     else e ← list_getitem events i;
          e' ← list_getitem events (i + 1);
          slice_axis1 run_data e e');
  n ← trial_samples config;
  slice_axis1 trial 0 n.

Definition divide_by_event (raw_run : Raw) (events : list Z)
    (config : gmap string pyval) : result (ndarray Q) :=
  let run_data := get_data raw_run in
  trials_list ← mapM (event_trial run_data events config) (seq 0 (length events));
  np_asarray trials_list.

(** ** Code that writes to the configuration dictionary *)

(** A computation that reads and writes a Python object of type [S] (the
    caller's [config] dict, a paradigm object) and may raise; the object
    keeps what was written before the raise. *)
Definition stM (S A : Type) : Type := S -> result A * S.

#[global] Instance stM_ret {S} : MRet (stM S) := fun A a st => (Ok a, st).

#[global] Instance stM_bind {S} : MBind (stM S) := fun A B k m st =>
  match m st with
  | (Ok a, st') => k a st'
  | (Raise e, st') => (Raise e, st')
  end.

(** A call that does not touch the object. *)
Definition st_lift {S A} (r : result A) : stM S A :=
  fun st => (r, st).

(** A call that is handed the object and only reads it. *)
Definition st_read {S A} (f : S -> result A) : stM S A :=
  fun st => (f st, st).

(** [for x in l: acc = body(acc, x)] *)
Fixpoint st_for {S A B} (body : B -> A -> stM S B) (l : list A) (acc : B) : stM S B :=
  match l with
  | [] => mret acc
  | x :: l' => acc' ← body acc x; st_for body l' acc'
  end.

Abbreviation cfgM := (stM (gmap string pyval)).

(** [config[key]] *)
Definition cfg_get (key : string) : cfgM pyval :=
  st_read (fun config => getitem config key).

(** [config[key] = v] *)
Definition cfg_set (key : string) (v : pyval) : cfgM unit :=
  fun config => (Ok tt, <[key := v]> config).

(** [needle in hay] for two strings. *)
Fixpoint contains (needle hay : string) : bool :=
  if String.prefix needle hay then true
  else match hay with
       | EmptyString => false
       | String _ hay' => contains needle hay'
       end.

(** [d[k]] for a dict held as its items in insertion order. *)
Definition dict_getitem {K V} `{EqDecision K} (d : list (K * V)) (k : K)
    (shown : string) : result V :=
  match list_find (fun kv => kv.1 = k) d with
  | Some (_, (_, v)) => Ok v
  | None => Raise (KeyError shown)
  end.

(** [for x in v] over a configuration value. *)
Definition iterate (v : pyval) : result (list Z) :=
  match v with
  | VInts l => Ok l
  | _ => Raise TypeError
  end.

(** A moabb dataset object: the text of [str(type(dataset))] and its
    method [get_data(subjects = ...)], which returns a dict
    subject -> session -> run -> recording. *)
Record Dataset : Type := mk_Dataset {
  type_str : string;
  dataset_get_data : pyval -> result (list (Z * list (string * list (string * Raw))))
}.

(** The local variables of [get_trial_handmade] that outlive one pass of its
    loop; [raw_data_actual_run] is unbound before the first pass. *)
Record trial_vars : Type := mk_trial_vars {
  trials_matrix_list : list (ndarray Q);
  label_list : list (ndarray Z);
  n_trials : nat;
  raw_data_actual_run : option Raw
}.

Section Segmenter.

(** [raw.filter(fmin, fmax)] of MNE: the recording after the band-pass
    filter has been applied in place. *)
Variable mne_filter : pyval -> pyval -> Raw -> Raw.

(** One pass of the loop of [get_trial_handmade] over a run. *)
Definition run_trials (vars : trial_vars) (run : Raw) : cfgM trial_vars :=
  let raw_info := found_events run in
  let events := map (fun row => row.1.1) raw_info in
  let raw_labels := map (fun row => row.2) raw_info in
  let sampling_freq := sfreq run in
  _ ← cfg_set "sampling_freq" (VNum sampling_freq);
  filter_data ← cfg_get "filter_data";
  run' ← (if truthy filter_data
          then fmin ← cfg_get "fmin";
               fmax ← cfg_get "fmax";
               mret (mne_filter fmin fmax run)
          else mret run);
  trials_matrix_actual_run ← st_read (divide_by_event run' events);
  mret (mk_trial_vars
          (trials_matrix_list vars ++ [trials_matrix_actual_run])
          (label_list vars ++ [mk_ndarray [length raw_labels] raw_labels])
          (n_trials vars + length raw_labels)
          (Some run')).

(** [raw_data] is a dict from run name to recording, in insertion order;
    [raw_data[run]] for a key [run] of the iteration is the recording
    stored under it. *)
Definition get_trial_handmade (raw_data : list (string * Raw))
    : cfgM (ndarray Q * ndarray Z * list string) :=
  vars ← st_for run_trials (map snd raw_data) (mk_trial_vars [] [] 0 None);
  trials_matrix ← st_lift (np_asarray (trials_matrix_list vars));
  labels ← st_lift (np_asarray (label_list vars));
  d2 ← st_lift (shape_at trials_matrix 2);
  d3 ← st_lift (shape_at trials_matrix 3);
  let trials_matrix := resize 0%Q trials_matrix [n_trials vars; d2; d3] in
  let labels := resize 0%Z labels [n_trials vars] in
  last_run ← st_lift (match raw_data_actual_run vars with
                       | Some r => Ok r
                       | None => Raise (UnboundLocalError "raw_data_actual_run")
                       end);
  mret (trials_matrix, labels, ch_names last_run).

(** *** Fetching by hand *)

(** The locals of [get_moabb_data_handmade] that outlive one pass of its
    loop; [ch_list] is unbound before the first pass. *)
Record subject_vars : Type := mk_subject_vars {
  trials_per_subject : list (ndarray Q);
  labels_per_subject : list (ndarray Z);
  ch_list_var : option (list string)
}.

Definition subject_trials (dataset : Dataset)
    (raw_dataset : list (Z * list (string * list (string * Raw))))
    (type_dataset : string) (vars : subject_vars) (subject : Z)
    : cfgM subject_vars :=
  raw_data ← st_lift (dict_getitem raw_dataset subject (pretty subject));
  raw_data ← st_lift
    (if bool_decide (type_dataset = "train") then dict_getitem raw_data "session_T" "session_T"
     else if bool_decide (type_dataset = "test") then dict_getitem raw_data "session_E" "session_E"
     else Raise (ValueError "type_dataset must have value train or test"));
  '(trials_matrix, labels, ch_list) ← get_trial_handmade raw_data;
  '(trials_matrix, ch_list) ← st_lift
    (if contains "BNCI2014001" (type_str dataset)
     then trials_matrix' ← slice_axis1 trials_matrix 0 22;
          mret (trials_matrix', py_slice ch_list 0 22)
     else mret (trials_matrix, ch_list));
  mret (mk_subject_vars
          (trials_per_subject vars ++ [trials_matrix])
          (labels_per_subject vars ++ [labels])
          (Some ch_list)).

Definition get_moabb_data_handmade (dataset : Dataset) (type_dataset : string)
    : cfgM (ndarray Q * ndarray Z * list string) :=
  subjects_list ← cfg_get "subjects_list";
  raw_dataset ← st_lift (dataset_get_data dataset subjects_list);
  subjects_list ← cfg_get "subjects_list";
  subjects ← st_lift (iterate subjects_list);
  vars ← st_for (subject_trials dataset raw_dataset type_dataset) subjects
                (mk_subject_vars [] [] None);
  trials ← st_lift (np_asarray (trials_per_subject vars));
  labels ← st_lift (np_asarray (labels_per_subject vars));
  ch_list ← st_lift (match ch_list_var vars with
                     | Some l => Ok l
                     | None => Raise (UnboundLocalError "ch_list")
                     end);
  mret (trials, labels, ch_list).

End Segmenter.

(** ** Fetching through the moabb paradigm *)

(** The attributes of the paradigm object that the function assigns. *)
Record Paradigm : Type := mk_Paradigm {
  resample : option pyval;
  fmin : option pyval;
  fmax : option pyval;
  baseline : option pyval;
  n_classes : option pyval
}.

Section Automatic.

(** [D] is the type of a dataset object, and [paradigm_get_data p d subjects]
    stands for [p.get_data(dataset = d, subjects = subjects)] of moabb:
    the trials, their labels, and the [session] column of the metadata. *)
Variable D : Type.
Variable paradigm_get_data :
  Paradigm -> D -> pyval -> result (ndarray Q * ndarray string * list string).

Definition set_attr (f : Paradigm -> Paradigm) : stM Paradigm unit :=
  fun p => (Ok tt, f p).

Definition get_moabb_data_automatic (dataset : D)
    (config : gmap string pyval) (type_dataset : string)
    : stM Paradigm (ndarray Q * ndarray string) :=
  resample_data ← st_lift (getitem config "resample_data");
  _ ← (if truthy resample_data
       then v ← st_lift (getitem config "resample_freq");
            set_attr (fun p => mk_Paradigm (Some v) (fmin p) (fmax p) (baseline p) (n_classes p))
       else mret tt);
  filter_data ← st_lift (getitem config "filter_data");
  _ ← (if truthy filter_data
       then v ← st_lift (getitem config "fmin");
            _ ← set_attr (fun p => mk_Paradigm (resample p) (Some v) (fmax p) (baseline p) (n_classes p));
            v ← st_lift (getitem config "fmax");
            set_attr (fun p => mk_Paradigm (resample p) (fmin p) (Some v) (baseline p) (n_classes p))
       else mret tt);
  _ ← (match config !! "baseline" with
       | Some v => set_attr (fun p => mk_Paradigm (resample p) (fmin p) (fmax p) (Some v) (n_classes p))
       | None => mret tt
       end);
  v ← st_lift (getitem config "n_classes");
  _ ← set_attr (fun p => mk_Paradigm (resample p) (fmin p) (fmax p) (baseline p) (Some v));
  subjects ← st_lift (getitem config "subjects_list");
  '(raw_data, raw_labels, session) ← st_read (fun p => paradigm_get_data p dataset subjects);
  let idx_type :=
    if bool_decide (type_dataset = "train")
    then Some (map (fun s => bool_decide (s = "session_T")) session)
    else if bool_decide (type_dataset = "test")
    then Some (map (fun s => bool_decide (s = "session_E")) session)
    else None in
  idx ← st_lift (match idx_type with
                 | Some m => Ok m
                 | None => Raise (UnboundLocalError "idx_type")
                 end);
  raw_data ← st_lift (np_mask raw_data idx);
  idx ← st_lift (match idx_type with
                 | Some m => Ok m
                 | None => Raise (UnboundLocalError "idx_type")
                 end);
  raw_labels ← st_lift (np_mask raw_labels idx);
  mret (raw_data, raw_labels).

End Automatic.

(** ** Spectral transform *)

Section Spectral.

(** [F] is the type of the sampling-frequency argument and [C] the type of
    a complex STFT coefficient.  [signal_stft x fs nperseg] stands for
    [scipy.signal.stft(x, fs = fs, nperseg = nperseg)], which returns the
    frequencies, the segment times and the coefficient matrix. *)
Variables F C : Type.
Variable signal_stft : ndarray Q -> F -> F -> ndarray Q * ndarray Q * ndarray C.

(** [np.asarray] of a list of lists of arrays. *)
Definition np_asarray_nested (ll : list (list (ndarray C))) : result (ndarray C) :=
  rows ← mapM np_asarray ll;
  np_asarray rows.

(** [trials_matrix[i, j]] *)
Definition np_index2 {A} (a : ndarray A) (i j : nat) : result (ndarray A) :=
  ai ← np_index a i;
  np_index ai j.

Definition compute_stft (trials_matrix : ndarray Q) (sampling_freq : F)
    : result (ndarray C) :=
  n0 ← shape_at trials_matrix 0;
  stft_trials_matrix ←
    mapM (fun i =>
            n1 ← shape_at trials_matrix 1;
            mapM (fun j =>
                    x ← np_index2 trials_matrix i j;
                    let '(f, t, tmp_stft) := signal_stft x sampling_freq sampling_freq in
                    mret tmp_stft)
                 (seq 0 n1))
         (seq 0 n0);
  np_asarray_nested stft_trials_matrix.

(** [baseline_removal] computes the transform and drops it: it returns
    [None]. *)
Definition baseline_removal (trials_matrix : ndarray Q) (sampling_freq : F)
    : result unit :=
  stft_trials_matrix ← compute_stft trials_matrix sampling_freq;
  mret tt.

(** *** [normalize_stft] *)

(** What a name of the function body may be bound to. *)
Inductive pyobj : Type :=
| ObjArray (a : ndarray C)
| ObjInt (n : nat)
| ObjModuleLevel.

(** The names bound at module level of [preprocess.py]: its imports and
    its functions. *)
Definition module_globals : list string :=
  ["np"; "plt"; "mne"; "signal"; "mb"; "mp"; "cd";
   "get_moabb_data_automatic"; "get_moabb_data_handmade";
   "get_trial_handmade"; "divide_by_event"; "baseline_removal";
   "compute_stft"; "normalize_stft"; "config_plot";
   "visualize_single_subject_average_channel"; "extract_data_to_plot";
   "download_preprocess_and_visualize"].

(** Reading a name inside a function: the locals first, then the module.
    Python's builtins hold no name that the function reads besides
    [range], which is resolved apart. *)
Definition load_name (locals : list (string * pyobj)) (name : string) : result pyobj :=
  match list_find (fun b => b.1 = name) locals with
  | Some (_, (_, o)) => Ok o
  | None =>
      if bool_decide (name ∈ module_globals) then Ok ObjModuleLevel
      else Raise (NameError name)
  end.

(** [o.shape[0]] *)
Definition obj_shape0 (o : pyobj) : result nat :=
  match o with
  | ObjArray a => shape_at a 0
  | _ => Raise AttributeError
  end.

(** [o[i]] *)
Definition obj_index (o : pyobj) (i : nat) : result pyobj :=
  match o with
  | ObjArray a => a' ← np_index a i; mret (ObjArray a')
  | _ => Raise TypeError
  end.

(** The function is run on a store that holds the caller's array, so that
    the array after the call can be compared with the one before.  The
    body has no assignment to an element of an array: the store is only
    read. *)
Definition normalize_stft (stft_trials_matrix : ndarray C)
    : result unit * ndarray C :=
  let store := stft_trials_matrix in
  let locals0 := [("stft_trials_matrix", ObjArray store)] in
  let outcome :=
    m ← load_name locals0 "stft_trials_matrix";
    n0 ← obj_shape0 m;
    _ ← mapM (fun i =>
                let locals1 := ("i", ObjInt i) :: locals0 in
                m ← load_name locals1 "stft_trials_matrix";
                stft_trial ← obj_index m i;
                let locals2 := ("stft_trial", stft_trial) :: locals1 in
                ts ← load_name locals2 "stft_trials";
                n1 ← obj_shape0 ts;
                _ ← mapM (fun j =>
                            let locals3 := ("j", ObjInt j) :: locals2 in
                            t ← load_name locals3 "stft_trial";
                            stft_channel ← obj_index t j;
                            mret tt)
                         (seq 0 n1);
                mret tt)
             (seq 0 n0);
    mret tt in
  (outcome, store).

End Spectral.

(** ** Averaging by label and channel *)

(** The configuration literal of [config_plot]. *)
Record plot_config : Type := mk_plot_config {
  figsize : nat * nat;
  ch_to_plot : list string;
  label_to_plot : list Z
}.

Definition config_plot : plot_config :=
  mk_plot_config (15, 10) ["C3"; "Cz"; "C4"] [0; 1; 2]%Z.

(** The channel names reach [extract_data_to_plot] either as a Python list
    ([Raw.ch_names], as [get_trial_handmade] returns them) or as a numpy
    array of strings. *)
Inductive channel_names : Type :=
| PyList (names : list string)
| NpArray (names : list string).

(** Element-wise sum of vectors of length [m]. *)
Definition vsum (m : nat) (vs : list (list Q)) : list Q :=
  foldr (zip_with Qplus) (replicate m 0%Q) vs.

(** [a.mean(0)]: the arithmetic mean along the first axis; the mean of no
    element is [nan]. *)
Definition mean_axis0 (a : ndarray Q) : result (ndarray (option Q)) :=
  match shape a with
  | [] => Raise IndexError
  | n :: rest =>
      let m := size_of rest in
      let total := vsum m (blocks n m (flat a)) in
      Ok (mk_ndarray rest
            (map (fun s => if n =? 0 then None
                           else Some (Qdiv s (inject_Z (Z.of_nat n))))
                 total))
  end.

(** [ch_list == ch] followed by [average_per_label[idx_ch]]. *)
Definition pick_channel {A} (average_per_label : ndarray A)
    (ch_list : channel_names) (ch : string) : result (ndarray A) :=
  match ch_list with
  | NpArray names => np_mask average_per_label (map (fun name => bool_decide (name = ch)) names)
  | PyList names => Ok (np_index_bool average_per_label false)
  end.

Definition extract_data_to_plot (data : ndarray Q) (ch_list : channel_names)
    (label_list : list Z) (config : plot_config)
    : result (list (list (ndarray (option Q)))) :=
  mapM (fun label =>
          let idx_label := map (fun l => bool_decide (l = label)) label_list in
          picked ← np_mask data idx_label;
          average_per_label ← mean_axis0 picked;
          mapM (fun ch =>
                  picked_ch ← pick_channel average_per_label ch_list ch;
                  mret (squeeze picked_ch))
               (ch_to_plot config))
       (label_to_plot config).

(** ** The whole pipeline *)

Section Pipeline.

Variable mne_filter : pyval -> pyval -> Raw -> Raw.
Variable C : Type.
Variable signal_stft : ndarray Q -> pyval -> pyval -> ndarray Q * ndarray Q * ndarray C.

(** [dataset] is the object [mb.BNCI2014001()], and the dict that
    [cd.get_moabb_dataset_config([3])] returns is the configuration the
    computation starts from. *)
Definition download_preprocess_and_visualize (dataset : Dataset) : cfgM unit :=
  '(trials_per_subject, labels_per_subject, ch_list) ←
    get_moabb_data_handmade mne_filter dataset "train";
  n ← st_lift (shape_at trials_per_subject 0);
  st_for (fun (_ : unit) i =>
            trials ← st_lift (np_index trials_per_subject i);
            labels ← st_lift (np_index labels_per_subject i);
            sampling_freq ← cfg_get "sampling_freq";
            a ← st_lift (baseline_removal pyval C signal_stft trials sampling_freq);
            mret tt)
         (seq 0 n) tt.

End Pipeline.

(** * Vocabulary of the properties *)

(** ** Windows and trials *)

(** The stop bound of the window of event [i]: the next onset, or [-1] for
    the last event. *)
Definition window_stop (events : list Z) (i : nat) : Z :=
  match events !! (i + 1) with
  | Some e' => e'
  | None => (-1)%Z
  end.

(** The number of samples of a trial cut from a recording of [s] samples:
    the window [e:stop] cut to [0:L]. *)
Definition trial_width (s : nat) (e stop L : Z) : nat :=
  let w0 := slice_bound s stop - slice_bound s e in
  slice_bound w0 L - slice_bound w0 0.




(** The configuration while a run is processed. *)
Definition run_config (config : gmap string pyval) (run : Raw) : gmap string pyval :=
  <["sampling_freq" := VNum (sfreq run)]> config.

Definition run_events (run : Raw) : list Z := map (fun row => row.1.1) (found_events run).

Definition run_labels (run : Raw) : list Z := map (fun row => row.2) (found_events run).

(** ** One pass over a run *)

Section SegmenterVocabulary.

Variable mne_filter : pyval -> pyval -> Raw -> Raw.

(** The recording that is cut into trials: filtered when the
    configuration asks for it. *)
Definition filtered_run (config : gmap string pyval) (run : Raw) : result Raw :=
  filter_data ← getitem config "filter_data";
  if truthy filter_data
  then fmin ← getitem config "fmin";
       fmax ← getitem config "fmax";
       Ok (mne_filter fmin fmax run)
  else Ok run.

(** What one pass computes from a run, apart from the bookkeeping. *)
Definition segment_run (config : gmap string pyval) (run : Raw)
    : result (ndarray Q * Raw) :=
  run' ← filtered_run (run_config config run) run;
  tm ← divide_by_event run' (run_events run) (run_config config run);
  Ok (tm, run').

Definition after_run (vars : trial_vars) (run : Raw) (out : ndarray Q * Raw) : trial_vars :=
  mk_trial_vars
    (trials_matrix_list vars ++ [out.1])
    (label_list vars ++ [mk_ndarray [length (run_labels run)] (run_labels run)])
    (n_trials vars + length (run_labels run))
    (Some out.2).

(** The state of the loop after the runs [runs] with outcomes [outs]. *)
Fixpoint after_runs (vars : trial_vars) (runs : list Raw)
    (outs : list (ndarray Q * Raw)) : trial_vars :=
  match runs, outs with
  | run :: runs', out :: outs' => after_runs (after_run vars run out) runs' outs'
  | _, _ => vars
  end.

(** What [get_trial_handmade] does after its loop. *)
Definition finish (vars : trial_vars) : result (ndarray Q * ndarray Z * list string) :=
  trials_matrix ← np_asarray (trials_matrix_list vars);
  labels ← np_asarray (label_list vars);
  d2 ← shape_at trials_matrix 2;
  d3 ← shape_at trials_matrix 3;
  last_run ← match raw_data_actual_run vars with
             | Some r => Ok r
             | None => Raise (UnboundLocalError "raw_data_actual_run")
             end;
  Ok (resize 0%Q trials_matrix [n_trials vars; d2; d3],
      resize 0%Z labels [n_trials vars],
      ch_names last_run).

(** The recording that [divide_by_event] receives for a run. *)
Definition run_after_filter (config : gmap string pyval) (run : Raw) : Raw :=
  match filtered_run (run_config config run) run with
  | Ok r => r
  | Raise _ => run
  end.

(** The trial and the label of every event of a run, in the order of the
    events: the trial is what one pass of the loop of [divide_by_event]
    computes for the event. *)
Definition labelled_trials (config : gmap string pyval) (run : Raw)
    : list (result (ndarray Q) * Z) :=
  imap (fun i row =>
          (event_trial (get_data (run_after_filter config run)) (run_events run)
             (run_config config run) i,
           row.2))
       (found_events run).

Definition trials_of (config : gmap string pyval) (run : Raw) : list (ndarray Q) :=
  match mapM (event_trial (get_data (run_after_filter config run)) (run_events run)
                (run_config config run))
             (seq 0 (length (run_events run))) with
  | Ok ts => ts
  | Raise _ => []
  end.

Definition label_array (run : Raw) : ndarray Z :=
  mk_ndarray [length (run_labels run)] (run_labels run).


End SegmenterVocabulary.


(** ** Transforms of a tensor *)

Section SpectralVocabulary.

Variables F C : Type.
Variable signal_stft : ndarray Q -> F -> F -> ndarray Q * ndarray Q * ndarray C.

(** The coefficient matrix among the three values that [signal.stft]
    returns. *)
Definition coefficients (out : ndarray Q * ndarray Q * ndarray C) : ndarray C := out.2.

(** The samples of channel [j] of trial [i]. *)
Definition cell (trials_matrix : ndarray Q) (i j : nat) : ndarray Q :=
  match shape trials_matrix with
  | _ :: c :: rest =>
      mk_ndarray rest
        (block (size_of rest) j (block (size_of (c :: rest)) i (flat trials_matrix)))
  | _ => trials_matrix
  end.

(** The transforms in the order of the two loops. *)
Definition stft_rows (tm : ndarray Q) (n c : nat) (sampling_freq : F)
    : list (list (ndarray C)) :=
  map (fun i =>
         map (fun j => coefficients (signal_stft (cell tm i j) sampling_freq sampling_freq))
             (seq 0 c))
      (seq 0 n).

(** The common shape of the transforms of signals of [t] samples. *)
Definition stft_out_shape (t : nat) (sampling_freq : F) : list nat :=
  shape (coefficients
           (signal_stft (mk_ndarray [t] (replicate t 0%Q)) sampling_freq sampling_freq)).

End SpectralVocabulary.

(** [np.asarray] of arrays of one shape. *)
Definition stack {A} (l : list (ndarray A)) : ndarray A :=
  match l with
  | [] => mk_ndarray [0] []
  | a :: _ => mk_ndarray (length l :: shape a) (concat (map flat l))
  end.

(** ** Reordered trials and means *)



(** The trials that carry a label, as the blocks of the data. *)
Definition trials_with_label (data : ndarray Q) (label_list : list Z) (label : Z)
    : list (list Q) :=
  select (map (fun l => bool_decide (l = label)) label_list)
         (blocks (length label_list) (size_of (tail (shape data))) (flat data)).

(** The mean along the first axis of the trials [picked], each of shape
    [rest]: the sum of the trials divided by their number. *)
Definition mean_of (rest : list nat) (picked : list (list Q)) : ndarray (option Q) :=
  mk_ndarray rest
    (map (fun s => if length picked =? 0 then None
                   else Some (Qdiv s (inject_Z (Z.of_nat (length picked)))))
         (vsum (size_of rest) picked)).

(** ** Concrete recordings, configurations and stand-ins *)

(** Two channels of ten samples, sampled at 1 Hz, with three events. *)
Definition demo_run : Raw :=
  mk_Raw 2 10 (map (fun i => inject_Z (Z.of_nat i)) (seq 0 20)) 1%Q ["C3"; "C4"]
    [(0, 0, 7); (3, 0, 8); (6, 0, 9)]%Z.

(** The same channels with events at other places and other labels. *)
Definition demo_run2 : Raw :=
  mk_Raw 2 10 (map (fun i => inject_Z (Z.of_nat (100 + i))) (seq 0 20)) 1%Q ["C3"; "C4"]
    [(1, 0, 8); (4, 0, 8); (7, 0, 7)]%Z.

Definition demo_config : gmap string pyval :=
  list_to_map [("filter_data", VBool false); ("length_trial", VNum 2%Q);
               ("subjects_list", VInts [3%Z])].

Definition no_filter (fmin fmax : pyval) (run : Raw) : Raw := run.


(** The example of the specification: one channel of 900 samples at 100 Hz,
    events at samples 0, 300 and 600, trials of 3 seconds. *)
Definition example_run : Raw :=
  mk_Raw 1 900 (map (fun i => inject_Z (Z.of_nat i)) (seq 0 900)) 100%Q ["Cz"]
    [(0, 0, 1); (300, 0, 2); (600, 0, 3)]%Z.

Definition example_config : gmap string pyval :=
  list_to_map [("sampling_freq", VNum 100%Q); ("length_trial", VNum 3%Q)].

(** A paradigm whose [get_data] returns two trials, one of each session. *)
Definition fixed_get_data (p : Paradigm) (dataset : unit) (subjects : pyval)
    : result (ndarray Q * ndarray string * list string) :=
  Ok (mk_ndarray [2; 1; 2] [1; 2; 3; 4]%Q,
      mk_ndarray [2] ["left_hand"; "right_hand"],
      ["session_T"; "session_E"]).

Definition automatic_config : gmap string pyval :=
  list_to_map [("resample_data", VBool false); ("filter_data", VBool false);
               ("n_classes", VNum 2%Q); ("subjects_list", VInts [1%Z])].

Definition new_paradigm : Paradigm := mk_Paradigm None None None None None.

(** A dataset of the class BNCI2014001 with one subject, number 3. *)
Definition demo_dataset : Dataset :=
  mk_Dataset "<class 'moabb.datasets.bnci.BNCI2014001'>"
    (fun subjects =>
       Ok [(3%Z, [("session_T", [("run_0", demo_run); ("run_1", demo_run2)]);
                  ("session_E", [("run_0", demo_run2)])])]).

(** A stand-in for [signal.stft] on which the statements can be run: the
    coefficient matrix is the signal itself as one row. *)
Definition one_row_stft (x : ndarray Q) (fs nperseg : Q)
    : ndarray Q * ndarray Q * ndarray Q :=
  (mk_ndarray [0] [], mk_ndarray [0] [], mk_ndarray [1; length (flat x)] (flat x)).

(** Two trials of two channels of three samples. *)
Definition demo_trials : ndarray Q :=
  mk_ndarray [2; 2; 3] (map (fun i => inject_Z (Z.of_nat i)) (seq 0 12)).

(** Three trials of two channels of two samples, labelled 0, 1, 0. *)
Definition demo_data : ndarray Q :=
  mk_ndarray [3; 2; 2] (map (fun i => inject_Z (Z.of_nat i)) (seq 0 12)).

Definition demo_labels : list Z := [0; 1; 0]%Z.

(** ** Configurations that let the filter step through *)

(** The configuration has ['filter_data'], and ['fmin'] and ['fmax'] too
    when it asks for the filter. *)
Definition filter_keys_present (config : gmap string pyval) : Prop :=
  match config !! "filter_data" with
  | Some filter_data =>
      truthy filter_data = true -> is_Some (config !! "fmin") /\ is_Some (config !! "fmax")
  | None => False
  end.

(** ** What a call may do to the configuration *)

(** The configuration [config'] is [config], or [config] with
    ['sampling_freq'] written with the frequency of a run. *)
Definition at_most_written (config config' : gmap string pyval) : Prop :=
  config' = config \/ exists run, config' = run_config config run.

(** ** What a plotted series holds *)

(** How many entries of the channel names the comparison [ch_list == ch]
    marks: the occurrences of the name in a numpy array, none in a Python
    list. *)
Definition occurrences (ch : string) (ch_list : channel_names) : nat :=
  match ch_list with
  | NpArray names => length (filter (fun name => name = ch) names)
  | PyList names => 0
  end.

(** The channel names fit a mean of [c] channels: a numpy array of names
    is compared entry by entry and has to have that length. *)
Definition names_fit (ch_list : channel_names) (c : nat) : Prop :=
  match ch_list with
  | NpArray names => length names = c
  | PyList names => True
  end.



(** ** What the paradigm is asked for *)

(** The session that a value of [type_dataset] selects. *)
Definition session_of (type_dataset : string) : option string :=
  if bool_decide (type_dataset = "train") then Some "session_T"
  else if bool_decide (type_dataset = "test") then Some "session_E"
  else None.

(** The paradigm object once the attributes that the configuration asks
    for have been assigned. *)
Definition configured (config : gmap string pyval) (p : Paradigm) : Paradigm :=
  let asked key := match config !! key with Some v => truthy v | None => false end in
  mk_Paradigm
    (if asked "resample_data" then config !! "resample_freq" else resample p)
    (if asked "filter_data" then config !! "fmin" else fmin p)
    (if asked "filter_data" then config !! "fmax" else fmax p)
    (match config !! "baseline" with Some v => Some v | None => baseline p end)
    (config !! "n_classes").

(** The configuration holds every key that [get_moabb_data_automatic]
    reads. *)
Definition automatic_keys_present (config : gmap string pyval) : Prop :=
  match config !! "resample_data" with
  | Some resample_data => truthy resample_data = true -> is_Some (config !! "resample_freq")
  | None => False
  end
  /\ filter_keys_present config
  /\ is_Some (config !! "n_classes")
  /\ is_Some (config !! "subjects_list").

(** ** What [get_moabb_data_handmade] keeps of a subject *)

(** The trials and labels of one subject: what [get_trial_handmade] returns
    for the session of the subject that [type_dataset] names, the trials
    cut to the first 22 channels for the dataset BNCI2014001.  The call of
    [get_trial_handmade] sees the configuration as the subjects before have
    left it. *)
Definition subject_row (mne_filter : pyval -> pyval -> Raw -> Raw) (dataset : Dataset)
    (raw_dataset : list (Z * list (string * list (string * Raw))))
    (type_dataset : string) (config : gmap string pyval)
    (subject : Z) (trials : ndarray Q) (labels : ndarray Z) : Prop :=
  exists sessions wanted raw_data config0 config1 tm chs,
    dict_getitem raw_dataset subject (pretty subject) = Ok sessions
    /\ session_of type_dataset = Some wanted
    /\ dict_getitem sessions wanted wanted = Ok raw_data
    /\ at_most_written config config0
    /\ get_trial_handmade mne_filter raw_data config0 = (Ok (tm, labels, chs), config1)
    /\ (if contains "BNCI2014001" (type_str dataset)
        then slice_axis1 tm 0 22 = Ok trials
        else trials = tm).



(** * Properties *)

(** ** Lists cut into blocks *)

Section Blocks.

Context {A : Type}.
Implicit Types (l : list A) (ls : list (list A)).

Lemma block_0 sz l : block sz 0 l = take sz l.
Proof. reflexivity. Qed.

Lemma block_S_app sz i x l :
  length x = sz -> block sz (S i) (x ++ l) = block sz i l.
Proof.
  intros Hx. unfold block. simpl.
  rewrite <- Hx at 2. rewrite <- drop_drop, drop_app_length. reflexivity.
Qed.

Lemma block_concat sz ls i x :
  Forall (fun y => length y = sz) ls -> ls !! i = Some x ->
  block sz i (concat ls) = x.
Proof.
  intros Hall. revert i. induction Hall as [|y ls Hy Hall IH]; intros i Hi.
  - discriminate.
  - destruct i as [|i]; simpl in *.
    + injection Hi as ->. rewrite block_0, <- Hy. apply take_app_length.
    + rewrite block_S_app by assumption. auto.
Qed.

Lemma blocks_concat sz ls :
  Forall (fun y => length y = sz) ls -> blocks (length ls) sz (concat ls) = ls.
Proof.
  intros Hall. apply list_eq. intros i. unfold blocks.
  rewrite list_lookup_fmap.
  destruct (ls !! i) as [x|] eqn:Hi.
  - rewrite lookup_seq_lt by (eapply lookup_lt_Some; eassumption).
    simpl. f_equal. eapply block_concat; eassumption.
  - rewrite lookup_seq_ge; [reflexivity|]. by apply lookup_ge_None.
Qed.

Lemma length_block sz i l :
  (S i) * sz <= length l -> length (block sz i l) = sz.
Proof.
  intros H. unfold block. rewrite length_take, length_drop. simpl in H. lia.
Qed.

Lemma blocks_lengths n sz l :
  n * sz <= length l -> Forall (fun y => length y = sz) (blocks n sz l).
Proof.
  intros H. unfold blocks. apply Forall_fmap, Forall_forall.
  intros i Hi. apply elem_of_seq in Hi. simpl. apply length_block. nia.
Qed.

Lemma length_blocks n sz l : length (blocks n sz l) = n.
Proof. unfold blocks. by rewrite length_map, length_seq. Qed.


Lemma length_concat_uniform sz ls :
  Forall (fun y => length y = sz) ls -> length (concat ls) = length ls * sz.
Proof.
  induction 1 as [|y ls Hy _ IH]; simpl; [done|].
  rewrite length_app, IH, Hy. reflexivity.
Qed.

End Blocks.

(** ** Slices *)

Lemma slice_bound_le n i : slice_bound n i <= n.
Proof. unfold slice_bound. destruct (Z.ltb_spec i 0); lia. Qed.

Lemma slice_bound_nonneg n i : (0 <= i)%Z -> slice_bound n i = Nat.min (Z.to_nat i) n.
Proof. unfold slice_bound. destruct (Z.ltb_spec i 0); lia. Qed.

Lemma slice_bound_last n : slice_bound n (-1) = n - 1.
Proof. unfold slice_bound. simpl. lia. Qed.

Lemma foldr_mul_size rest c : size_of (c :: rest) = c * size_of rest.
Proof. reflexivity. Qed.

Section SliceAxis1.

Context {A : Type}.
Implicit Types a b : ndarray A.

(** Cutting the second axis of a well-formed array gives a well-formed
    array whose second axis has the length of the slice. *)
Lemma slice_axis1_shape a c s rest start stop :
  shape a = c :: s :: rest -> wf a ->
  exists b, slice_axis1 a start stop = Ok b
    /\ shape b = c :: (slice_bound s stop - slice_bound s start) :: rest
    /\ wf b.
Proof.
  intros Hs Hwf. unfold slice_axis1. rewrite Hs.
  eexists. split; [reflexivity|]. split; [reflexivity|].
  unfold wf in *. simpl. rewrite Hs in Hwf. simpl in Hwf.
  set (r := size_of rest) in *.
  set (lo := slice_bound s start). set (hi := slice_bound s stop).
  assert (Hhi : hi <= s) by apply slice_bound_le.
  rewrite (length_concat_uniform ((hi - lo) * r)).
  - rewrite length_map, length_blocks. fold (size_of rest). fold r. lia.
  - apply Forall_fmap.
    eapply Forall_impl; [apply (blocks_lengths c (s * r)); lia|].
    intros blk Hblk. simpl. rewrite length_take, length_drop, Hblk. nia.
Qed.

(** On a matrix the slice cuts every row. *)
Lemma slice_axis1_rows a c s start stop :
  shape a = [c; s] -> wf a ->
  slice_axis1 a start stop =
    Ok (mk_ndarray [c; slice_bound s stop - slice_bound s start]
          (concat (map (fun row => py_slice row start stop) (blocks c s (flat a))))).
Proof.
  intros Hs Hwf. unfold slice_axis1. rewrite Hs.
  unfold wf in Hwf. rewrite Hs in Hwf. simpl in Hwf.
  change (size_of []) with 1. rewrite !Nat.mul_1_r.
  do 3 f_equal. apply map_ext_Forall.
  eapply Forall_impl; [apply (blocks_lengths c s); lia|].
  intros row Hrow. simpl. unfold py_slice. rewrite Hrow. reflexivity.
Qed.

End SliceAxis1.

(** ** Loops that collect results *)

Section MapM.

Context {A B : Type}.
Implicit Types (f : A -> result B) (l : list A) (ys : list B).

Lemma mapM_Ok f l ys :
  mapM f l = Ok ys <-> Forall2 (fun x y => f x = Ok y) l ys.
Proof.
  revert ys. induction l as [|x l IH]; intros ys; simpl.
  - split.
    + intros [= <-]. constructor.
    + intros H. inversion H. reflexivity.
  - split.
    + destruct (f x) as [y|e] eqn:Hx; [|discriminate].
      destruct (mapM f l) as [ys'|e] eqn:Hl; [|discriminate].
      intros [= <-]. constructor; [assumption|]. by apply IH.
    + intros H. inversion H as [|? y ? ys' Hx Hl]; subst.
      rewrite Hx. apply IH in Hl. rewrite Hl. reflexivity.
Qed.

Lemma mapM_total f l :
  Forall (fun x => exists y, f x = Ok y) l -> exists ys, mapM f l = Ok ys.
Proof.
  induction 1 as [|x l [y Hy] _ [ys IH]]; simpl.
  - by eexists.
  - rewrite Hy, IH. by eexists.
Qed.

Lemma mapM_length f l ys : mapM f l = Ok ys -> length ys = length l.
Proof. intros H. apply mapM_Ok in H. symmetry. eapply Forall2_length, H. Qed.

Lemma mapM_lookup f l ys i x :
  mapM f l = Ok ys -> l !! i = Some x -> exists y, ys !! i = Some y /\ f x = Ok y.
Proof.
  intros H Hi. apply mapM_Ok in H.
  destruct (Forall2_lookup_l _ _ _ _ _ H Hi) as (y & Hy & Hxy). eauto.
Qed.

Lemma mapM_raise_head f x l e : f x = Raise e -> mapM f (x :: l) = Raise e.
Proof. intros H. simpl. by rewrite H. Qed.

End MapM.

(** ** Stacking arrays *)

Section Asarray.

Context {A : Type}.
Implicit Types (a b : ndarray A) (l : list (ndarray A)).

Lemma np_asarray_uniform l s :
  l <> [] -> Forall (fun b => shape b = s) l ->
  np_asarray l = Ok (mk_ndarray (length l :: s) (concat (map flat l))).
Proof.
  intros Hne Hall. destruct l as [|a l']; [done|].
  unfold np_asarray.
  assert (Ha : shape a = s) by (by inversion Hall).
  replace (forallb _ _) with true; [by rewrite Ha|].
  symmetry. apply forallb_forall. intros b Hb.
  apply bool_decide_eq_true. rewrite Ha.
  rewrite Forall_forall in Hall. apply Hall. by apply list_elem_of_In.
Qed.

Lemma np_asarray_Ok l a :
  np_asarray l = Ok a ->
  (l = [] /\ a = mk_ndarray [0] []) \/
  (exists s, l <> [] /\ Forall (fun b => shape b = s) l
             /\ a = mk_ndarray (length l :: s) (concat (map flat l))).
Proof.
  destruct l as [|b l']; simpl.
  - intros [= <-]. by left.
  - destruct (bool_decide (shape b = shape b) && forallb _ l') eqn:Hf; [|discriminate].
    intros [= <-]. right. exists (shape b). split; [done|]. split; [|done].
    apply andb_true_iff in Hf as [_ Hf].
    constructor; [done|].
    apply Forall_forall. intros x Hx.
    rewrite forallb_forall in Hf.
    apply list_elem_of_In, Hf, bool_decide_eq_true in Hx. done.
Qed.

Lemma flat_lengths l s :
  Forall wf l -> Forall (fun b => shape b = s) l ->
  Forall (fun y => length y = size_of s) (map flat l).
Proof.
  intros Hwf Hs. apply Forall_fmap, Forall_lookup. intros i b Hi. simpl.
  rewrite <- (Forall_lookup_1 _ _ _ _ Hs Hi).
  exact (Forall_lookup_1 _ _ _ _ Hwf Hi).
Qed.

Lemma stack_wf l s :
  Forall wf l -> Forall (fun b => shape b = s) l ->
  wf (mk_ndarray (length l :: s) (concat (map flat l))).
Proof.
  intros Hwf Hs. unfold wf. simpl.
  rewrite (length_concat_uniform (size_of s)).
  - by rewrite length_map.
  - by apply flat_lengths.
Qed.


(** The [i]-th sub-array of a stack is the [i]-th array stacked. *)
Lemma stack_index l s i b :
  Forall wf l -> Forall (fun b => shape b = s) l -> l !! i = Some b ->
  np_index (mk_ndarray (length l :: s) (concat (map flat l))) i = Ok b.
Proof.
  intros Hwf Hs Hi. unfold np_index. simpl.
  assert (Hlt : i < length l) by (eapply lookup_lt_Some; eassumption).
  apply Nat.ltb_lt in Hlt. rewrite Hlt. f_equal.
  rewrite (block_concat _ _ _ (flat b)).
  - rewrite Forall_forall in Hs.
    rewrite <- (Hs b) by (eapply list_elem_of_lookup_2; eassumption).
    by destruct b.
  - by apply flat_lengths.
  - by rewrite list_lookup_fmap, Hi.
Qed.

End Asarray.

(** ** One trial of [divide_by_event] *)

Lemma bind_Ok {A B} (a : A) (k : A -> result B) : (Ok a ≫= k) = k a.
Proof. reflexivity. Qed.

Lemma bind_Raise {A B} e (k : A -> result B) : (Raise e ≫= k) = Raise e.
Proof. reflexivity. Qed.

Lemma list_getitem_Some {A} (l : list A) i x : l !! i = Some x -> list_getitem l i = Ok x.
Proof. intros H. unfold list_getitem. by rewrite H. Qed.

Lemma length_py_slice {A} (l : list A) start stop :
  length (py_slice l start stop)
  = slice_bound (length l) stop - slice_bound (length l) start.
Proof.
  unfold py_slice. rewrite length_take, length_drop.
  pose proof (slice_bound_le (length l) stop). lia.
Qed.

Lemma event_trial_spec rd events config i c s e L :
  shape rd = [c; s] -> wf rd -> events !! i = Some e ->
  trial_samples config = Ok L ->
  event_trial rd events config i =
    Ok (mk_ndarray [c; trial_width s e (window_stop events i) L]
          (concat (map (fun row => py_slice (py_slice row e (window_stop events i)) 0 L)
                       (blocks c s (flat rd))))).
Proof.
  intros Hs Hwf Hi HL. unfold event_trial.
  assert (Hlt : i < length events) by (eapply lookup_lt_Some; eassumption).
  assert (Htrial :
    (if i =? length events - 1
     then e0 ← list_getitem events i; slice_axis1 rd e0 (-1)
     else e0 ← list_getitem events i;
          e' ← list_getitem events (i + 1); slice_axis1 rd e0 e')
    = slice_axis1 rd e (window_stop events i)).
  { unfold window_stop. rewrite (list_getitem_Some _ _ _ Hi), bind_Ok.
    destruct (Nat.eqb_spec i (length events - 1)) as [Heq|Hne].
    - rewrite (lookup_ge_None_2 events (i + 1)) by lia. reflexivity.
    - destruct (lookup_lt_is_Some_2 events (i + 1)) as [e' He']; [lia|].
      rewrite He', (list_getitem_Some _ _ _ He'), bind_Ok. reflexivity. }
  rewrite Htrial, (slice_axis1_rows rd c s) by assumption.
  rewrite bind_Ok, HL, bind_Ok.
  set (stop := window_stop events i).
  set (w0 := slice_bound s stop - slice_bound s e).
  assert (Hrows : Forall (fun row => length row = s) (blocks c s (flat rd))).
  { apply blocks_lengths. unfold wf in Hwf. rewrite Hs in Hwf. simpl in Hwf. lia. }
  assert (Hcut : Forall (fun y => length y = w0)
                   (map (fun row => py_slice row e stop) (blocks c s (flat rd)))).
  { apply Forall_fmap. eapply Forall_impl; [exact Hrows|].
    intros row Hrow. simpl. by rewrite length_py_slice, Hrow. }
  rewrite (slice_axis1_rows _ c w0); [|reflexivity|].
  - simpl flat.
    replace c with (length (map (fun row => py_slice row e stop) (blocks c s (flat rd)))) at 2
      by (by rewrite length_map, length_blocks).
    rewrite blocks_concat by assumption. rewrite map_map. reflexivity.
  - unfold wf. simpl. rewrite (length_concat_uniform w0) by assumption.
    rewrite length_map, length_blocks. lia.
Qed.




(** Whatever the events and the configuration, a trial that is produced is a
    well-formed matrix with the channels of the recording. *)
Lemma event_trial_wf rd events config i c s t :
  shape rd = [c; s] -> wf rd ->
  event_trial rd events config i = Ok t ->
  wf t /\ exists w, shape t = [c; w].
Proof.
  intros Hs Hwf. unfold event_trial.
  assert (Hwin : forall r : result (ndarray Q), forall start stop,
            r = slice_axis1 rd start stop ->
            exists b, r = Ok b /\ shape b = [c; slice_bound s stop - slice_bound s start] /\ wf b).
  { intros r start stop ->. by apply slice_axis1_shape. }
  destruct (if i =? length events - 1 then _ else _) as [trial|err] eqn:Htrial;
    [|discriminate].
  assert (Hshape : exists w0, shape trial = [c; w0] /\ wf trial).
  { destruct (i =? length events - 1).
    - destruct (list_getitem events i) as [e|]; [|discriminate].
      rewrite bind_Ok in Htrial.
      destruct (Hwin _ e (-1)%Z eq_refl) as (b & Hb & Hsb & Hwb).
      rewrite Hb in Htrial. injection Htrial as <-. eauto.
    - destruct (list_getitem events i) as [e|]; [|discriminate].
      rewrite bind_Ok in Htrial.
      destruct (list_getitem events (i + 1)) as [e'|]; [|discriminate].
      rewrite bind_Ok in Htrial.
      destruct (Hwin _ e e' eq_refl) as (b & Hb & Hsb & Hwb).
      rewrite Hb in Htrial. injection Htrial as <-. eauto. }
  destruct Hshape as (w0 & Hs0 & Hwf0).
  rewrite bind_Ok. destruct (trial_samples config) as [L|]; [|discriminate].
  rewrite bind_Ok. intros Ht.
  destruct (slice_axis1_shape trial c w0 [] 0%Z L Hs0 Hwf0) as (b & Hb & Hsb & Hwb).
  rewrite Hb in Ht. injection Ht as <-. eauto.
Qed.

Lemma mapM_map {A B} (f : A -> result B) (g : A -> B) (l : list A) :
  Forall (fun x => f x = Ok (g x)) l -> mapM f l = Ok (map g l).
Proof.
  induction 1 as [|x l Hx _ IH]; simpl; [done|]. by rewrite Hx, IH.
Qed.

Lemma get_data_wf run : raw_wf run -> wf (get_data run).
Proof. unfold raw_wf, wf. simpl. lia. Qed.






(** ** The loop of [get_trial_handmade] *)

Lemma run_config_twice config run run' :
  run_config (run_config config run) run' = run_config config run'.
Proof. unfold run_config. apply insert_insert_eq. Qed.

Lemma run_config_other config run key :
  key <> "sampling_freq" -> run_config config run !! key = config !! key.
Proof. intros H. unfold run_config. by rewrite lookup_insert_ne. Qed.

Section SegmenterFacts.

Variable mne_filter : pyval -> pyval -> Raw -> Raw.

Lemma run_trials_eq vars run config :
  run_trials mne_filter vars run config =
    (out ← segment_run mne_filter config run; Ok (after_run vars run out), run_config config run).
Proof.
  unfold run_trials, segment_run, filtered_run.
  unfold mbind, stM_bind, result_bind, mret, stM_ret, cfg_set, cfg_get, st_read.
  fold (run_config config run). fold (run_events run). fold (run_labels run).
  destruct (getitem (run_config config run) "filter_data") as [fd|]; [|done].
  destruct (truthy fd).
  - destruct (getitem (run_config config run) "fmin") as [lo|]; [|done].
    destruct (getitem (run_config config run) "fmax") as [hi|]; [|done].
    by destruct (divide_by_event _ _ _).
  - by destruct (divide_by_event _ _ _).
Qed.

Lemma segment_run_config config run run' :
  segment_run mne_filter (run_config config run') run = segment_run mne_filter config run.
Proof. unfold segment_run. by rewrite run_config_twice. Qed.

Lemma loop_result runs vars config :
  (st_for (run_trials mne_filter) runs vars config).1
  = (outs ← mapM (segment_run mne_filter config) runs; Ok (after_runs vars runs outs)).
Proof.
  revert vars config. induction runs as [|run runs IH]; intros vars config; [done|].
  simpl st_for. unfold mbind at 1, stM_bind at 1. rewrite run_trials_eq.
  simpl mapM. destruct (segment_run mne_filter config run) as [out|e]; [|done].
  rewrite bind_Ok, IH.
  assert (Hext : mapM (segment_run mne_filter (run_config config run)) runs
                 = mapM (segment_run mne_filter config) runs).
  { clear. induction runs as [|r runs IH]; [done|].
    simpl. by rewrite segment_run_config, IH. }
  rewrite Hext. by destruct (mapM (segment_run mne_filter config) runs).
Qed.

(** The configuration after the loop: the one before, with only
    ['sampling_freq'] written, by the last run that was started. *)
Lemma loop_config runs vars config :
  (st_for (run_trials mne_filter) runs vars config).2 = config
  \/ exists run, run ∈ runs
       /\ (st_for (run_trials mne_filter) runs vars config).2 = run_config config run.
Proof.
  revert vars config. induction runs as [|run runs IH]; intros vars config; [by left|].
  right. simpl st_for. unfold mbind at 1, stM_bind at 1. rewrite run_trials_eq.
  destruct (segment_run mne_filter config run) as [out|e].
  - rewrite bind_Ok.
    destruct (IH (after_run vars run out) (run_config config run)) as [H|(r & Hr & H)].
    + exists run. split; [left|]. done.
    + exists r. split; [by right|]. by rewrite H, run_config_twice.
  - exists run. split; [left|]. done.
Qed.


Lemma get_trial_handmade_split raw_data config :
  get_trial_handmade mne_filter raw_data config =
    let loop := st_for (run_trials mne_filter) (map snd raw_data)
                       (mk_trial_vars [] [] 0 None) config in
    (vars ← loop.1; finish vars, loop.2).
Proof.
  unfold get_trial_handmade, finish.
  unfold mbind at 1, stM_bind at 1.
  destruct (st_for _ _ _ _) as [[vars|e] config']; [|done].
  cbn [fst snd]. rewrite bind_Ok.
  unfold mbind, stM_bind, st_lift, result_bind, mret, stM_ret.
  destruct (np_asarray (trials_matrix_list vars)) as [tm|]; [|done].
  destruct (np_asarray (label_list vars)) as [lb|]; [|done].
  destruct (shape_at tm 2) as [d2|]; [|done].
  destruct (shape_at tm 3) as [d3|]; [|done].
  by destruct (raw_data_actual_run vars).
Qed.

End SegmenterFacts.

(** ** The write to the configuration *)




(** ** Trials and labels in the order of the events *)

Lemma concat_map_concat {A B} (f : A -> list B) (xss : list (list A)) :
  concat (map (fun xs => concat (map f xs)) xss) = concat (map f (concat xss)).
Proof.
  induction xss as [|xs xss IH]; simpl; [done|].
  by rewrite map_app, concat_app, IH.
Qed.

Lemma concat_zip_with {A B D} (g : A -> B -> D) (xss : list (list A)) (yss : list (list B)) :
  Forall2 (fun xs ys => length xs = length ys) xss yss ->
  concat (zip_with (zip_with g) xss yss) = zip_with g (concat xss) (concat yss).
Proof.
  induction 1 as [|xs ys xss yss Hlen _ IH]; simpl; [done|].
  by rewrite zip_with_app, IH.
Qed.

Lemma length_concat_sum {A} (xss : list (list A)) :
  length (concat xss) = sum_list (map length xss).
Proof. induction xss as [|xs xss IH]; simpl; [done|]. by rewrite length_app, IH. Qed.

(** A [resize] to the size the array already has keeps the elements. *)
Lemma resize_same_size {A} (zero : A) (a : ndarray A) new_shape :
  length (flat a) = size_of new_shape ->
  resize zero a new_shape = mk_ndarray new_shape (flat a).
Proof.
  intros H. unfold resize. f_equal.
  rewrite H, Nat.sub_diag. simpl. rewrite app_nil_r.
  rewrite <- H. apply firstn_all.
Qed.

Section TrialOrder.

Variable mne_filter : pyval -> pyval -> Raw -> Raw.

(** The filter of MNE returns a recording whose samples fill its
    channels-by-samples shape. *)
Hypothesis filter_wf : forall fmin fmax run, raw_wf run -> raw_wf (mne_filter fmin fmax run).

Lemma length_run_events run : length (run_events run) = length (found_events run).
Proof. apply length_map. Qed.

Lemma length_run_labels run : length (run_labels run) = length (found_events run).
Proof. apply length_map. Qed.

Lemma run_facts config run out :
  raw_wf run -> segment_run mne_filter config run = Ok out ->
  length (trials_of mne_filter config run) = length (found_events run)
  /\ np_asarray (trials_of mne_filter config run) = Ok out.1
  /\ labelled_trials mne_filter config run
     = zip_with (fun t l => (Ok t, l)) (trials_of mne_filter config run) (run_labels run)
  /\ Forall (fun t => wf t /\ exists c w, shape t = [c; w]) (trials_of mne_filter config run).
Proof.
  intros Hwf. unfold segment_run, trials_of, labelled_trials, run_after_filter.
  destruct (filtered_run mne_filter (run_config config run) run) as [run'|] eqn:Hf;
    [|discriminate].
  rewrite bind_Ok. unfold divide_by_event.
  destruct (mapM _ _) as [ts|] eqn:Hts; [|discriminate].
  rewrite bind_Ok.
  destruct (np_asarray ts) as [tm|] eqn:Htm; [|discriminate].
  rewrite bind_Ok. intros [= <-]. cbn [fst snd].
  assert (Hwf' : raw_wf run').
  { unfold filtered_run in Hf.
    destruct (getitem _ "filter_data") as [fd|]; [|discriminate].
    rewrite bind_Ok in Hf. destruct (truthy fd).
    - destruct (getitem _ "fmin") as [lo|]; [|discriminate].
      destruct (getitem _ "fmax") as [hi|]; [|discriminate].
      injection Hf as <-. by apply filter_wf.
    - by injection Hf as <-. }
  pose proof (mapM_length _ _ _ Hts) as Hlen.
  rewrite length_seq, length_run_events in Hlen.
  split; [done|]. split; [done|]. split.
  - apply list_eq. intros i.
    rewrite list_lookup_imap, lookup_zip_with. unfold run_labels.
    rewrite list_lookup_fmap.
    destruct (found_events run !! i) as [row|] eqn:Hrow; simpl.
    + assert (Hi : i < length (found_events run)) by (eapply lookup_lt_Some; eassumption).
      assert (Hseq : seq 0 (length (run_events run)) !! i = Some i).
      { apply lookup_seq. rewrite length_run_events. lia. }
      destruct (mapM_lookup _ _ _ _ _ Hts Hseq) as (t & Ht & Hev).
      rewrite Ht. simpl. by rewrite Hev.
    + by destruct (ts !! i).
  - apply Forall_lookup. intros i t Hi.
    apply mapM_Ok in Hts.
    destruct (Forall2_lookup_r _ _ _ _ _ Hts Hi) as (j & _ & Hj).
    destruct (event_trial_wf (get_data run') _ _ j (n_channels run') (n_times run') t
                eq_refl (get_data_wf _ Hwf') Hj) as (Hwt & w & Hsh).
    eauto.
Qed.

Lemma run_shapes config run out s4 d2 d3 :
  raw_wf run -> segment_run mne_filter config run = Ok out ->
  shape out.1 = s4 -> s4 !! 1 = Some d2 -> s4 !! 2 = Some d3 ->
  Forall (fun t => wf t /\ shape t = [d2; d3]) (trials_of mne_filter config run)
  /\ flat out.1 = concat (map flat (trials_of mne_filter config run)).
Proof.
  intros Hwf Hseg Hs4 Hd2 Hd3.
  destruct (run_facts config run out Hwf Hseg) as (_ & Hstack & _ & Hts).
  apply np_asarray_Ok in Hstack as [[_ Hout]|(s2 & Hne & Hs2 & Hout)].
  - rewrite Hout in Hs4. by subst s4.
  - rewrite Hout in Hs4 |- *. simpl in Hs4. subst s4. simpl in Hd2, Hd3.
    split; [|done].
    assert (Hs2' : s2 = [d2; d3]).
    { destruct (trials_of mne_filter config run) as [|t ts]; [done|].
      apply Forall_cons_1 in Hts as [(_ & c & w & Hcw) _].
      apply Forall_cons_1 in Hs2 as [Ht _].
      rewrite Hcw in Ht. subst s2. simpl in Hd2, Hd3. congruence. }
    subst s2. apply Forall_lookup. intros i t Hi. split.
    + by destruct (Forall_lookup_1 _ _ _ _ Hts Hi).
    + exact (Forall_lookup_1 _ _ _ _ Hs2 Hi).
Qed.

Lemma after_runs_fields vars runs outs :
  length runs = length outs ->
  trials_matrix_list (after_runs vars runs outs) = trials_matrix_list vars ++ map fst outs
  /\ label_list (after_runs vars runs outs) = label_list vars ++ map label_array runs
  /\ n_trials (after_runs vars runs outs)
     = n_trials vars + sum_list (map (fun run => length (found_events run)) runs).
Proof.
  revert vars outs. induction runs as [|run runs IH]; intros vars [|out outs] Hlen;
    try discriminate.
  - simpl. by rewrite !app_nil_r, Nat.add_0_r.
  - simpl in Hlen. injection Hlen as Hlen.
    destruct (IH (after_run vars run out) outs Hlen) as (Ht & Hl & Hn).
    simpl after_runs. rewrite Ht, Hl, Hn. simpl.
    rewrite <- !app_assoc.
    split; [reflexivity|]. split; [reflexivity|]. rewrite length_run_labels. lia.
Qed.

Lemma stacked_runs config runs outs stacked d2 d3 :
  Forall raw_wf runs ->
  Forall2 (fun run out => segment_run mne_filter config run = Ok out) runs outs ->
  np_asarray (map fst outs) = Ok stacked ->
  shape_at stacked 2 = Ok d2 -> shape_at stacked 3 = Ok d3 ->
  Forall (fun t => wf t /\ shape t = [d2; d3]) (concat (map (trials_of mne_filter config) runs))
  /\ flat stacked = concat (map flat (concat (map (trials_of mne_filter config) runs))).
Proof.
  intros Hwf Hseg Hstack Hd2 Hd3.
  apply np_asarray_Ok in Hstack as [[_ ->]|(s4 & Hne & Hs4 & ->)]; [done|].
  unfold shape_at in Hd2, Hd3. simpl in Hd2, Hd3.
  destruct (s4 !! 1) as [d2'|] eqn:H1; [|done]. injection Hd2 as ->.
  destruct (s4 !! 2) as [d3'|] eqn:H2; [|done]. injection Hd3 as ->.
  simpl flat. rewrite <- concat_map_concat.
  assert (Hall : Forall2 (fun run out =>
                   Forall (fun t => wf t /\ shape t = [d2; d3]) (trials_of mne_filter config run)
                   /\ flat out.1 = concat (map flat (trials_of mne_filter config run))) runs outs).
  { apply Forall2_same_length_lookup. split; [by eapply Forall2_length|].
    intros i run out Hrun Hout.
    apply (run_shapes config run out s4 d2 d3); try done.
    - exact (Forall_lookup_1 _ _ _ _ Hwf Hrun).
    - exact (Forall2_lookup_lr _ _ _ _ _ _ Hseg Hrun Hout).
    - apply (Forall_lookup_1 _ _ i _ Hs4). by rewrite list_lookup_fmap, Hout. }
  clear -Hall. induction Hall as [|run out runs outs [Hts Hfl] _ [IH1 IH2]]; [done|].
  simpl. split.
  - apply Forall_app. by split.
  - by rewrite Hfl, IH2.
Qed.

Lemma expected_zip config runs outs :
  Forall raw_wf runs ->
  Forall2 (fun run out => segment_run mne_filter config run = Ok out) runs outs ->
  concat (map (labelled_trials mne_filter config) runs)
  = zip_with (fun t l => (Ok t, l)) (concat (map (trials_of mne_filter config) runs))
      (concat (map run_labels runs))
  /\ length (concat (map (trials_of mne_filter config) runs))
     = sum_list (map (fun run => length (found_events run)) runs)
  /\ length (concat (map run_labels runs))
     = sum_list (map (fun run => length (found_events run)) runs).
Proof.
  intros Hwf Hseg. induction Hseg as [|run out runs outs Hrun _ IH]; [done|].
  apply Forall_cons_1 in Hwf as [Hwf1 Hwf].
  destruct (IH Hwf) as (IHz & IHt & IHl).
  destruct (run_facts config run out Hwf1 Hrun) as (Hlen & _ & Hzip & _).
  simpl. rewrite !length_app, IHt, IHl, Hlen, length_run_labels.
  split; [|done].
  rewrite zip_with_app by (by rewrite Hlen, length_run_labels).
  by rewrite Hzip, IHz.
Qed.

(** C3. When [get_trial_handmade] returns, the trial matrix has one trial
    per event of all the runs taken together, the label vector has that
    length, and the [i]-th trial and the [i]-th label are the trial and the
    label of the [i]-th event, counting the events run after run in the
    order in which each run lists them. *)
Theorem get_trial_handmade_trials_match_events
    (raw_data : list (string * Raw)) (config config' : gmap string pyval)
    (tm : ndarray Q) (labels : ndarray Z) (chs : list string) :
  Forall (fun kv => raw_wf kv.2) raw_data ->
  get_trial_handmade mne_filter raw_data config = (Ok (tm, labels, chs), config') ->
  let expected := concat (map (fun kv => labelled_trials mne_filter config kv.2) raw_data) in
  length expected = sum_list (map (fun kv => length (found_events kv.2)) raw_data)
  /\ (exists c w, shape tm = [length expected; c; w])
  /\ shape labels = [length expected]
  /\ length (flat labels) = length expected
  /\ forall i t l, expected !! i = Some (t, l) ->
       exists trial, t = Ok trial /\ np_index tm i = Ok trial
                     /\ flat labels !! i = Some l.
Proof.
  intros Hwf Hcall expected. subst expected.
  rewrite <- (map_map snd (labelled_trials mne_filter config)).
  rewrite <- (map_map snd (fun run => length (found_events run))).
  apply Forall_fmap in Hwf. change (Forall raw_wf (map snd raw_data)) in Hwf.
  set (runs := map snd raw_data) in *.
  rewrite get_trial_handmade_split in Hcall. fold runs in Hcall.
  cbn zeta in Hcall. injection Hcall as Hres _.
  rewrite loop_result in Hres.
  destruct (mapM (segment_run mne_filter config) runs) as [outs|] eqn:Hm; [|done].
  rewrite !bind_Ok in Hres. apply mapM_Ok in Hm.
  destruct (after_runs_fields (mk_trial_vars [] [] 0 None) runs outs
              (Forall2_length _ _ _ Hm)) as (Ht & Hl & Hn).
  simpl in Ht, Hl, Hn.
  unfold finish in Hres. rewrite Ht, Hl, Hn in Hres.
  destruct (np_asarray (map fst outs)) as [stacked|] eqn:Hstack; [|done].
  rewrite bind_Ok in Hres.
  destruct (np_asarray (map label_array runs)) as [lstacked|] eqn:Hlstack; [|done].
  rewrite bind_Ok in Hres.
  destruct (shape_at stacked 2) as [d2|] eqn:Hd2; [|done]. rewrite bind_Ok in Hres.
  destruct (shape_at stacked 3) as [d3|] eqn:Hd3; [|done]. rewrite bind_Ok in Hres.
  destruct (raw_data_actual_run _) as [last_run|]; [|done].
  rewrite bind_Ok in Hres. injection Hres as <- <- _.
  destruct (stacked_runs config runs outs stacked d2 d3 Hwf Hm Hstack Hd2 Hd3)
    as (Hall & Hflat).
  destruct (expected_zip config runs outs Hwf Hm) as (Hzip & Hlen_t & Hlen_l).
  set (all := concat (map (trials_of mne_filter config) runs)) in *.
  set (N := sum_list (map (fun run => length (found_events run)) runs)) in *.
  assert (Hlen_e : length (concat (map (labelled_trials mne_filter config) runs)) = N).
  { rewrite Hzip, length_zip_with. lia. }
  assert (Hwf_all : Forall wf all) by (eapply Forall_impl; [exact Hall|]; by intros t [? _]).
  assert (Hsh_all : Forall (fun t => shape t = [d2; d3]) all)
    by (eapply Forall_impl; [exact Hall|]; by intros t [_ ?]).
  assert (Htm : resize 0%Q stacked [N; d2; d3]
                = mk_ndarray (length all :: [d2; d3]) (concat (map flat all))).
  { rewrite resize_same_size.
    - by rewrite Hflat, Hlen_t.
    - rewrite Hflat, (length_concat_uniform (size_of [d2; d3])).
      + rewrite length_map, Hlen_t. reflexivity.
      + by apply flat_lengths. }
  assert (Hlab : resize 0%Z lstacked [N]
                 = mk_ndarray [N] (concat (map run_labels runs))).
  { assert (Hfl : flat lstacked = concat (map run_labels runs)).
    { apply np_asarray_Ok in Hlstack as [[Hnil ->]|(s & _ & _ & ->)].
      - apply fmap_nil_inv in Hnil. by rewrite Hnil.
      - simpl. by rewrite map_map. }
    rewrite resize_same_size; rewrite Hfl; [done|].
    rewrite Hlen_l. simpl. lia. }
  rewrite Hlen_e, Htm, Hlab. simpl shape. simpl flat.
  split; [done|]. split; [exists d2, d3; by rewrite Hlen_t|].
  split; [done|]. split; [done|].
  intros i t l Hi. rewrite Hzip in Hi.
  apply lookup_zip_with_Some in Hi as (x & y & Heq & Hx & Hy).
  injection Heq as -> ->. exists x. split; [done|]. split; [|done].
  by apply stack_index.
Qed.

End TrialOrder.

(** On two concrete runs of three events each the call returns six trials
    and six labels; the fifth trial and label are those of the second event
    of the second run. *)
Lemma get_trial_handmade_trials_match_events_witness :
  let raw_data := [("run_0", demo_run); ("run_1", demo_run2)] in
  exists tm labels chs config',
    get_trial_handmade no_filter raw_data demo_config = (Ok (tm, labels, chs), config')
    /\ (exists c w, shape tm = [6; c; w])
    /\ shape labels = [6]
    /\ flat labels !! 4 = Some 8%Z
    /\ np_index tm 4
       = event_trial (get_data demo_run2) [1; 4; 7]%Z (run_config demo_config demo_run2) 1
    /\ np_index tm 4 = Ok (mk_ndarray [2; 2] [104; 105; 114; 115]%Q).
Proof.
  intros raw_data.
  destruct (get_trial_handmade no_filter raw_data demo_config)
    as [[[[tm labels] chs]|e] config'] eqn:Hcall;
    [|vm_compute in Hcall; discriminate].
  exists tm, labels, chs, config'. split; [reflexivity|].
  assert (Hwf : Forall (fun kv : string * Raw => raw_wf kv.2) raw_data)
    by (repeat constructor).
  destruct (get_trial_handmade_trials_match_events no_filter (fun _ _ _ H => H)
              raw_data demo_config config' tm labels chs Hwf Hcall)
    as (_ & Hshape & Hlab & _ & Hidx).
  split; [exact Hshape|]. split; [exact Hlab|].
  destruct (Hidx 4
              (event_trial (get_data demo_run2) [1; 4; 7]%Z
                 (run_config demo_config demo_run2) 1)
              8%Z eq_refl) as (trial & Htrial & Hnp & Hl).
  split; [exact Hl|]. split; [by rewrite Hnp, Htrial|].
  rewrite Hnp, <- Htrial. reflexivity.
Defined.

(** ** Trials of full length *)

Section FullWindows.

Variable mne_filter : pyval -> pyval -> Raw -> Raw.

(** The filter of MNE changes the samples of a recording and neither the
    number of channels nor the number of samples. *)
Hypothesis filter_wf :
  forall fmin fmax run, raw_wf run -> raw_wf (mne_filter fmin fmax run).
Hypothesis filter_shape :
  forall fmin fmax run,
    n_channels (mne_filter fmin fmax run) = n_channels run
    /\ n_times (mne_filter fmin fmax run) = n_times run.






End FullWindows.



(** ** The window of the last event *)

(** The window of an event that has a successor runs from its onset to the
    onset of the successor. *)
Lemma inner_window_ends_at_next_onset run events config L i e e' :
  raw_wf run -> trial_samples config = Ok L ->
  events !! i = Some e -> events !! (i + 1) = Some e' ->
  event_trial (get_data run) events config i
  = Ok (mk_ndarray [n_channels run; trial_width (n_times run) e e' L]
          (concat (map (fun row => py_slice (py_slice row e e') 0 L)
                       (blocks (n_channels run) (n_times run) (samples run))))).
Proof.
  intros Hwf HL He He'.
  rewrite (event_trial_spec (get_data run) events config i (n_channels run) (n_times run)
             e L eq_refl (get_data_wf _ Hwf) He HL).
  unfold window_stop. by rewrite He'.
Qed.

(** The window of the last event runs from its onset to the last sample but
    one: of a recording of [s] samples it holds [s - 1 - e] samples at most,
    and never the sample [s - 1]. *)
Lemma last_window_stops_before_the_end run events config L e :
  raw_wf run -> trial_samples config = Ok L ->
  events !! (length events - 1) = Some e ->
  event_trial (get_data run) events config (length events - 1)
  = Ok (mk_ndarray [n_channels run; trial_width (n_times run) e (-1) L]
          (concat (map (fun row => py_slice (py_slice row e (-1)) 0 L)
                       (blocks (n_channels run) (n_times run) (samples run)))))
  /\ forall row : list Q,
       length row = n_times run -> (0 <= e)%Z ->
       length (py_slice row e (-1)) = n_times run - 1 - Z.to_nat e.
Proof.
  intros Hwf HL He. split.
  - rewrite (event_trial_spec (get_data run) events config (length events - 1)
               (n_channels run) (n_times run) e L eq_refl (get_data_wf _ Hwf) He HL).
    unfold window_stop. rewrite lookup_ge_None_2; [done|].
    apply lookup_lt_Some in He. lia.
  - intros row Hrow He0.
    rewrite length_py_slice, Hrow, slice_bound_last, slice_bound_nonneg by done. lia.
Qed.

(** C1.  The window of the last event is [events[i]:-1], which stops one
    sample before the end of the recording.  On the example of the
    specification the third trial therefore has 299 samples, the samples 600
    to 898, where the window [600:900] up to the end of the recording has
    300; the three trials do not have one shape and no tensor of shape
    (3, 1, 300) is formed. *)
Theorem divide_by_event_last_window_drops_a_sample :
  trial_samples example_config = Ok 300%Z
  /\ (exists t1 t2 t3,
        mapM (event_trial (get_data example_run) [0; 300; 600]%Z example_config) (seq 0 3)
        = Ok [t1; t2; t3]
        /\ shape t1 = [1; 300] /\ shape t2 = [1; 300] /\ shape t3 = [1; 299]
        /\ last (flat t3) = Some (inject_Z 898))
  /\ length (py_slice (samples example_run) 600 900) = 300
  /\ divide_by_event example_run [0; 300; 600]%Z example_config
     = Raise (ValueError "inhomogeneous shape").
Proof.
  split; [reflexivity|]. split; [|split; [reflexivity|]].
  - destruct (mapM (event_trial (get_data example_run) [0; 300; 600]%Z example_config)
                (seq 0 3)) as [[|t1 [|t2 [|t3 [|t4 ts]]]]|e] eqn:Hm;
      try (vm_compute in Hm; discriminate).
    exists t1, t2, t3. split; [reflexivity|].
    vm_compute in Hm. injection Hm as <- <- <-. repeat split; reflexivity.
  - vm_compute. reflexivity.
Qed.

(** ** An unknown [type_dataset] *)

Lemma st_bind_Ok_inv {S A B} (m : stM S A) (k : A -> stM S B) st b st2 :
  (m ≫= k) st = (Ok b, st2) ->
  exists a st1, m st = (Ok a, st1) /\ k a st1 = (Ok b, st2).
Proof.
  unfold mbind, stM_bind. destruct (m st) as [[a|e] st1]; [eauto|discriminate].
Qed.

Lemma st_bind_Raise {S A B} (m : stM S A) (k : A -> stM S B) st e st1 :
  m st = (Raise e, st1) -> (m ≫= k) st = (Raise e, st1).
Proof. intros H. unfold mbind, stM_bind. by rewrite H. Qed.

Lemma st_bind_Ok {S A B} (m : stM S A) (k : A -> stM S B) st a st1 :
  m st = (Ok a, st1) -> (m ≫= k) st = k a st1.
Proof. intros H. unfold mbind, stM_bind. by rewrite H. Qed.

Section UnknownType.

Variable type_dataset : string.
Hypothesis not_train : type_dataset <> "train".
Hypothesis not_test : type_dataset <> "test".

Lemma subject_trials_unknown mne_filter dataset raw_dataset vars subject sessions config :
  dict_getitem raw_dataset subject (pretty subject) = Ok sessions ->
  subject_trials mne_filter dataset raw_dataset type_dataset vars subject config
  = (Raise (ValueError "type_dataset must have value train or test"), config).
Proof.
  intros Hdict. unfold subject_trials.
  erewrite st_bind_Ok; [|unfold st_lift; by rewrite Hdict].
  apply st_bind_Raise. unfold st_lift.
  by rewrite !bool_decide_eq_false_2.
Qed.

(** [get_moabb_data_handmade] checks the argument at the first subject. *)
Lemma get_moabb_data_handmade_unknown mne_filter dataset config subject subjects
    raw_dataset sessions :
  config !! "subjects_list" = Some (VInts (subject :: subjects)) ->
  dataset_get_data dataset (VInts (subject :: subjects)) = Ok raw_dataset ->
  dict_getitem raw_dataset subject (pretty subject) = Ok sessions ->
  get_moabb_data_handmade mne_filter dataset type_dataset config
  = (Raise (ValueError "type_dataset must have value train or test"), config).
Proof.
  intros Hsub Hget Hdict. unfold get_moabb_data_handmade.
  assert (Hread : cfg_get "subjects_list" config
                  = (Ok (VInts (subject :: subjects)), config)).
  { unfold cfg_get, st_read, getitem. by rewrite Hsub. }
  erewrite st_bind_Ok; [|exact Hread].
  erewrite st_bind_Ok; [|unfold st_lift; by rewrite Hget].
  erewrite st_bind_Ok; [|exact Hread].
  erewrite st_bind_Ok; [|reflexivity].
  apply st_bind_Raise. simpl st_for.
  apply st_bind_Raise. by eapply subject_trials_unknown.
Qed.

(** [get_moabb_data_automatic] has no such check, and yet it never
    returns: the first read of the local [idx_type], which neither branch
    has bound, raises. *)
Lemma get_moabb_data_automatic_never_returns (D : Type) paradigm_get_data (dataset : D)
    config paradigm res paradigm' :
  get_moabb_data_automatic D paradigm_get_data dataset config type_dataset paradigm
  <> (Ok res, paradigm').
Proof.
  intros H. unfold get_moabb_data_automatic in H.
  rewrite !bool_decide_eq_false_2 in H by done.
  repeat (apply st_bind_Ok_inv in H as (? & ? & _ & H)).
  match type of H with
  | context [match ?fetched with (_, _) => _ end] =>
      destruct fetched as [[raw_data raw_labels] session]
  end.
  apply st_bind_Ok_inv in H as (? & ? & H & _). discriminate.
Qed.

End UnknownType.

(** C4.  Called with [type_dataset = 'validation'],
    [get_moabb_data_automatic] sets the paradigm up, fetches all the data,
    takes neither branch of its [if]/[elif], and stops at the read of the
    local [idx_type] that no branch has bound: an [UnboundLocalError], not an
    error about the argument.  With ['train'] the same call returns the
    trial of the training session.  [get_moabb_data_handmade] has the
    [else] branch that the other function lacks and raises its
    [ValueError]. *)
Theorem get_moabb_data_automatic_misses_the_check :
  (get_moabb_data_automatic unit fixed_get_data tt automatic_config "validation"
     new_paradigm).1
  = Raise (UnboundLocalError "idx_type")
  /\ (get_moabb_data_automatic unit fixed_get_data tt automatic_config "train"
        new_paradigm).1
     = Ok (mk_ndarray [1; 1; 2] [1; 2]%Q, mk_ndarray [1] ["left_hand"])
  /\ (get_moabb_data_handmade no_filter demo_dataset "validation" demo_config).1
     = Raise (ValueError "type_dataset must have value train or test").
Proof.
  split; [reflexivity|]. split; [reflexivity|].
  rewrite (get_moabb_data_handmade_unknown "validation" ltac:(discriminate)
             ltac:(discriminate) no_filter demo_dataset demo_config 3%Z []
             _ _ eq_refl eq_refl eq_refl).
  reflexivity.
Qed.

(** ** [normalize_stft] *)

(** C10.  On a tensor with at least one trial [normalize_stft] raises
    [NameError] for the name [stft_trials], which is bound neither in the
    function nor in the module; on a tensor with no trial the loop body is
    never run and the function returns [None]; in every case the array it
    was given is the array it leaves. *)
Theorem normalize_stft_raises_name_error (C : Type) (stft_trials_matrix : ndarray C) :
  normalize_stft C stft_trials_matrix =
    (match shape stft_trials_matrix with
     | [] => Raise IndexError
     | 0 :: _ => Ok tt
     | S _ :: _ => Raise (NameError "stft_trials")
     end,
     stft_trials_matrix).
Proof.
  destruct stft_trials_matrix as [sh fl].
  destruct sh as [|[|n] rest]; reflexivity.
Qed.

Lemma stft_trials_is_not_bound :
  ("stft_trials" ∉ module_globals)
  /\ ("stft_trials" ∉ ["stft_trials_matrix"; "i"; "stft_trial"; "j"; "stft_channel"]).
Proof. split; apply (bool_decide_unpack _); reflexivity. Qed.

(** ** The spectral transform *)

Section SpectralFacts.

Variables F C : Type.
Variable signal_stft : ndarray Q -> F -> F -> ndarray Q * ndarray Q * ndarray C.

Lemma np_index2_cell tm n c t i j :
  shape tm = [n; c; t] -> i < n -> j < c -> np_index2 tm i j = Ok (cell tm i j).
Proof.
  intros Hs Hi Hj. unfold np_index2, np_index, cell. rewrite Hs.
  apply Nat.ltb_lt in Hi. rewrite Hi, bind_Ok. cbn [shape flat].
  apply Nat.ltb_lt in Hj. by rewrite Hj.
Qed.

Lemma cell_wf tm n c t i j :
  shape tm = [n; c; t] -> wf tm -> i < n -> j < c ->
  shape (cell tm i j) = [t] /\ wf (cell tm i j).
Proof.
  intros Hs Hwf Hi Hj. unfold cell, wf in *. rewrite Hs in *. simpl in *.
  split; [done|].
  rewrite length_block; [done|].
  rewrite length_block; [nia|]. rewrite Hwf. nia.
Qed.

Lemma compute_stft_rows tm n c t sampling_freq :
  shape tm = [n; c; t] ->
  compute_stft F C signal_stft tm sampling_freq
  = np_asarray_nested C (stft_rows F C signal_stft tm n c sampling_freq).
Proof.
  intros Hs. unfold compute_stft, shape_at. rewrite Hs. simpl lookup.
  cbn iota. rewrite bind_Ok.
  rewrite (mapM_map _ (fun i =>
             map (fun j => coefficients C (signal_stft (cell tm i j) sampling_freq sampling_freq))
                 (seq 0 c))); [done|].
  apply Forall_forall. intros i Hi. apply elem_of_seq in Hi.
  rewrite bind_Ok. apply mapM_map, Forall_forall. intros j Hj.
  apply elem_of_seq in Hj.
  rewrite (np_index2_cell tm n c t) by (done || lia). rewrite bind_Ok.
  unfold coefficients. by destruct (signal_stft _ _ _) as [[f tt] tmp].
Qed.

(** What is known of [scipy.signal.stft]: the coefficient matrix is a
    well-formed array, and its shape depends on the input only through the
    shape of the input. *)
Hypothesis stft_wf :
  forall x fs nperseg, wf (coefficients C (signal_stft x fs nperseg)).
Hypothesis stft_shape :
  forall x y fs nperseg,
    wf x -> wf y -> shape x = shape y ->
    shape (coefficients C (signal_stft x fs nperseg))
    = shape (coefficients C (signal_stft y fs nperseg)).

Lemma cell_out_shape tm n c t i j sampling_freq :
  shape tm = [n; c; t] -> wf tm -> i < n -> j < c ->
  shape (coefficients C (signal_stft (cell tm i j) sampling_freq sampling_freq))
  = stft_out_shape F C signal_stft t sampling_freq.
Proof.
  intros Hs Hwf Hi Hj.
  destruct (cell_wf tm n c t i j Hs Hwf Hi Hj) as [Hsh Hw].
  apply stft_shape; [done| |done].
  unfold wf. simpl. rewrite length_replicate. lia.
Qed.

Lemma np_asarray_stack {A} (l : list (ndarray A)) s :
  Forall (fun b => shape b = s) l -> np_asarray l = Ok (stack l).
Proof.
  intros Hs. destruct l as [|a l']; [done|].
  rewrite (np_asarray_uniform (a :: l') s); [|done|done].
  unfold stack. by rewrite (Forall_inv Hs).
Qed.

Lemma stack_cons {A} (l : list (ndarray A)) s :
  l <> [] -> Forall (fun b => shape b = s) l ->
  stack l = mk_ndarray (length l :: s) (concat (map flat l)).
Proof.
  intros Hne Hs. destruct l as [|a l']; [done|].
  unfold stack. by rewrite (Forall_inv Hs).
Qed.

Section Tensor.

Variables (tm : ndarray Q) (n c t : nat) (sampling_freq : F).
Hypothesis tm_shape : shape tm = [n; c; t].
Hypothesis tm_wf : wf tm.

Let s := stft_out_shape F C signal_stft t sampling_freq.
Let rows := stft_rows F C signal_stft tm n c sampling_freq.

Lemma rows_lookup i j :
  i < n -> j < c ->
  exists row, rows !! i = Some row
    /\ row !! j
       = Some (coefficients C (signal_stft (cell tm i j) sampling_freq sampling_freq)).
Proof.
  intros Hi Hj. subst rows. unfold stft_rows. eexists. split.
  - rewrite list_lookup_fmap, lookup_seq_lt by done. reflexivity.
  - rewrite list_lookup_fmap, lookup_seq_lt by done. reflexivity.
Qed.

Lemma rows_uniform :
  Forall (fun row => length row = c
                     /\ Forall (fun b => wf b /\ shape b = s) row) rows.
Proof.
  subst rows. unfold stft_rows. apply Forall_fmap, Forall_forall.
  intros i Hi. apply elem_of_seq in Hi. simpl. split.
  - by rewrite length_map, length_seq.
  - apply Forall_fmap, Forall_forall. intros j Hj. apply elem_of_seq in Hj.
    simpl. split; [apply stft_wf|].
    apply (cell_out_shape tm n c t); (done || lia).
Qed.

Lemma row_stack_facts (row : list (ndarray C)) :
  length row = c -> Forall (fun b => wf b /\ shape b = s) row ->
  np_asarray row = Ok (stack row)
  /\ wf (stack row)
  /\ shape (stack row) = (if decide (c = 0) then [0] else c :: s).
Proof.
  intros Hlen Hrow.
  assert (Hsh : Forall (fun b => shape b = s) row)
    by (eapply Forall_impl; [exact Hrow|]; by intros b [_ ?]).
  assert (Hwf : Forall wf row)
    by (eapply Forall_impl; [exact Hrow|]; by intros b [? _]).
  split; [by apply (np_asarray_stack row s)|].
  destruct row as [|a row'].
  - simpl in Hlen. subst c. by rewrite decide_True.
  - rewrite (stack_cons (a :: row') s) by done.
    split; [by apply stack_wf|].
    rewrite decide_False by (simpl in Hlen; lia). simpl. by rewrite <- Hlen.
Qed.

Lemma compute_stft_returns :
  compute_stft F C signal_stft tm sampling_freq = Ok (stack (map stack rows)).
Proof.
  rewrite (compute_stft_rows tm n c t) by done. fold rows.
  unfold np_asarray_nested.
  rewrite (mapM_map _ stack).
  - rewrite bind_Ok.
    apply (np_asarray_stack _ (if decide (c = 0) then [0] else c :: s)).
    apply Forall_fmap. eapply Forall_impl; [exact rows_uniform|].
    intros row [Hlen Hrow]. by destruct (row_stack_facts row Hlen Hrow) as (_ & _ & ?).
  - eapply Forall_impl; [exact rows_uniform|].
    intros row [Hlen Hrow]. by destruct (row_stack_facts row Hlen Hrow) as (? & _).
Qed.


Lemma stacked_entry i j :
  i < n -> j < c ->
  np_index2 (stack (map stack rows)) i j
  = Ok (coefficients C (signal_stft (cell tm i j) sampling_freq sampling_freq)).
Proof.
  intros Hi Hj.
  destruct (rows_lookup i j Hi Hj) as (row & Hrow & Hcell).
  pose proof (Forall_lookup_1 _ _ _ _ rows_uniform Hrow) as [Hlen Huni].
  assert (Hne : rows <> []) by (intros Hnil; by rewrite Hnil in Hrow).
  unfold np_index2.
  rewrite (stack_cons (map stack rows) (c :: s)).
  - rewrite (stack_index (map stack rows) (c :: s) i (stack row)).
    + rewrite bind_Ok. rewrite (stack_cons row s).
      * apply stack_index; try done.
        -- eapply Forall_impl; [exact Huni|]. by intros b [? _].
        -- eapply Forall_impl; [exact Huni|]. by intros b [_ ?].
      * intros Hnil. by rewrite Hnil in Hcell.
      * eapply Forall_impl; [exact Huni|]. by intros b [_ ?].
    + apply Forall_fmap. eapply Forall_impl; [exact rows_uniform|].
      intros r [Hl Hr]. by destruct (row_stack_facts r Hl Hr) as (_ & ? & _).
    + apply Forall_fmap. eapply Forall_impl; [exact rows_uniform|].
      intros r [Hl Hr]. destruct (row_stack_facts r Hl Hr) as (_ & _ & Hsh).
      simpl. rewrite Hsh. by rewrite decide_False by lia.
    + by rewrite list_lookup_fmap, Hrow.
  - by destruct rows.
  - apply Forall_fmap. eapply Forall_impl; [exact rows_uniform|].
    intros r [Hl Hr]. destruct (row_stack_facts r Hl Hr) as (_ & _ & Hsh).
    simpl. rewrite Hsh. by rewrite decide_False by lia.
Qed.

End Tensor.

(** C5.  [compute_stft] returns a tensor whose entry at trial [i] and
    channel [j] is the coefficient matrix that [signal.stft] returns for the
    samples of that channel of that trial, called with [fs] and [nperseg]
    both equal to the sampling frequency: one transform per trial and
    channel, and nothing done to its coefficients C. *)
Theorem compute_stft_entries (tm : ndarray Q) (n c t : nat) (sampling_freq : F) :
  shape tm = [n; c; t] -> wf tm ->
  exists R, compute_stft F C signal_stft tm sampling_freq = Ok R
    /\ forall i j, i < n -> j < c ->
         exists x, np_index2 tm i j = Ok x
           /\ np_index2 R i j
              = Ok (coefficients C (signal_stft x sampling_freq sampling_freq)).
Proof.
  intros Hs Hwf. eexists. split; [by apply (compute_stft_returns tm n c t)|].
  intros i j Hi Hj. exists (cell tm i j).
  split; [by apply (np_index2_cell tm n c t)|].
  by apply (stacked_entry tm n c t).
Qed.


End SpectralFacts.

Lemma one_row_stft_wf x fs nperseg : wf (coefficients Q (one_row_stft x fs nperseg)).
Proof. unfold wf. simpl. lia. Qed.

Lemma one_row_stft_shape x y fs nperseg :
  wf x -> wf y -> shape x = shape y ->
  shape (coefficients Q (one_row_stft x fs nperseg))
  = shape (coefficients Q (one_row_stft y fs nperseg)).
Proof. unfold wf. intros Hx Hy Hs. simpl. by rewrite Hx, Hy, Hs. Qed.

Lemma compute_stft_entries_witness :
  exists R, compute_stft Q Q one_row_stft demo_trials 250%Q = Ok R
    /\ np_index2 R 1 0 = Ok (mk_ndarray [1; 3] [6; 7; 8]%Q).
Proof.
  destruct (compute_stft_entries Q Q one_row_stft one_row_stft_wf one_row_stft_shape
              demo_trials 2 2 3 250%Q eq_refl eq_refl) as (R & HR & Hentries).
  exists R. split; [exact HR|].
  destruct (Hentries 1 0 ltac:(lia) ltac:(lia)) as (x & Hx & Hentry).
  rewrite Hentry. vm_compute in Hx. injection Hx as <-. reflexivity.
Defined.


(** ** Averages by label *)





Lemma select_none {A} (mask : list bool) (l : list A) :
  Forall (fun b => b = false) mask -> select mask l = [].
Proof.
  intros H. revert l. induction H as [|b mask -> _ IH]; intros [|x l]; simpl; auto.
Qed.

Lemma select_elem_of {A} (mask : list bool) (l : list A) :
  Forall (fun y => y ∈ l) (select mask l).
Proof.
  revert l. induction mask as [|b mask IH]; intros [|x l]; simpl; try by constructor.
  destruct b.
  - constructor; [left|]. eapply Forall_impl; [apply IH|]. intros y Hy. by right.
  - eapply Forall_impl; [apply IH|]. intros y Hy. by right.
Qed.


Lemma label_average data n rest label_list label :
  shape data = n :: rest -> wf data -> length label_list = n ->
  np_mask data (map (fun l => bool_decide (l = label)) label_list) ≫= mean_axis0
  = Ok (mean_of rest (trials_with_label data label_list label)).
Proof.
  intros Hs Hwf Hlen. unfold np_mask, trials_with_label. rewrite Hs.
  rewrite length_map, Hlen, Nat.eqb_refl, bind_Ok. simpl tail.
  set (picked := select _ _).
  unfold mean_axis0, mean_of. simpl shape. simpl flat. cbn iota beta.
  rewrite blocks_concat; [done|].
  eapply Forall_impl; [apply select_elem_of|].
  intros y Hy. simpl in Hy.
  assert (Hall : Forall (fun y => length y = size_of rest) (blocks n (size_of rest) (flat data))).
  { apply blocks_lengths. unfold wf in Hwf. rewrite Hs in Hwf. simpl in Hwf. lia. }
  rewrite Forall_forall in Hall. by apply Hall.
Qed.

Lemma mapM_ext {A B} (f g : A -> result B) (l : list A) :
  (forall x, f x = g x) -> mapM f l = mapM g l.
Proof. intros H. induction l as [|x l IH]; simpl; [done|]. by rewrite H, IH. Qed.

(** [extract_data_to_plot] in terms of the mean of the trials of a label. *)
Lemma extract_data_to_plot_means data n rest ch_list label_list config :
  shape data = n :: rest -> wf data -> length label_list = n ->
  extract_data_to_plot data ch_list label_list config
  = mapM (fun label =>
            mapM (fun ch =>
                    picked_ch ← pick_channel
                                  (mean_of rest (trials_with_label data label_list label))
                                  ch_list ch;
                    mret (squeeze picked_ch))
                 (ch_to_plot config))
         (label_to_plot config).
Proof.
  intros Hs Hwf Hlen. unfold extract_data_to_plot. apply mapM_ext. intros label.
  pose proof (label_average data n rest label_list label Hs Hwf Hlen) as Havg.
  destruct (np_mask data _) as [picked|e]; [|discriminate].
  rewrite bind_Ok in Havg. rewrite bind_Ok. by rewrite Havg, bind_Ok.
Qed.


Section Reordering.

Variables (data : ndarray Q) (n : nat) (rest : list nat) (label_list : list Z).
Variable p : list nat.
Hypothesis data_shape : shape data = n :: rest.
Hypothesis data_wf : wf data.
Hypothesis labels_length : length label_list = n.
Hypothesis p_permutation : p ≡ₚ seq 0 n.






End Reordering.



(** ** A channel that is not in the list *)

Lemma pick_unmatched_channel (average : ndarray (option Q)) c t ch_list ch :
  shape average = [c; t] ->
  match ch_list with
  | NpArray names => length names = c /\ ch ∉ names
  | PyList names => ch ∉ names
  end ->
  exists entry, pick_channel average ch_list ch = Ok entry
    /\ flat entry = [] /\ exists rest, shape entry = 0 :: rest.
Proof.
  intros Hs Hch. destruct ch_list as [names|names]; simpl.
  - eexists. split; [reflexivity|]. simpl. eauto.
  - destruct Hch as [Hlen Hnot]. unfold np_mask. rewrite Hs, length_map, Hlen, Nat.eqb_refl.
    rewrite select_none.
    + eexists. split; [reflexivity|]. simpl. eauto.
    + apply Forall_fmap, Forall_forall. intros name Hname. simpl.
      apply bool_decide_eq_false_2. intros ->. by apply Hnot.
Qed.

Lemma pick_any_channel (average : ndarray (option Q)) c t ch_list ch :
  shape average = [c; t] ->
  match ch_list with
  | NpArray names => length names = c
  | PyList names => True
  end ->
  exists entry, pick_channel average ch_list ch = Ok entry.
Proof.
  intros Hs Hch. destruct ch_list as [names|names]; simpl; [eauto|].
  unfold np_mask. rewrite Hs, length_map, Hch, Nat.eqb_refl. eauto.
Qed.

Lemma squeeze_empty {A} (entry : ndarray A) rest :
  flat entry = [] -> shape entry = 0 :: rest ->
  flat (squeeze entry) = [] /\ size_of (shape (squeeze entry)) = 0.
Proof.
  intros Hf Hs. unfold squeeze. simpl. split; [done|].
  rewrite Hs, filter_cons, decide_True by done. reflexivity.
Qed.

(** C8.  A channel name of [ch_to_plot] that is not in the list of channel
    names raises nothing: [extract_data_to_plot] returns, with one row per
    label, and the series of that channel is an array with no element in
    every row. *)
Theorem unmatched_channel_gives_empty_series
    (data : ndarray Q) (n c t : nat) (ch_list : channel_names)
    (label_list : list Z) (config : plot_config) (ch : string) :
  shape data = [n; c; t] -> wf data -> length label_list = n ->
  match ch_list with
  | NpArray names => length names = c /\ ch ∉ names
  | PyList names => ch ∉ names
  end ->
  exists series,
    extract_data_to_plot data ch_list label_list config = Ok series
    /\ length series = length (label_to_plot config)
    /\ forall a b row,
         series !! a = Some row -> ch_to_plot config !! b = Some ch ->
         exists entry, row !! b = Some entry
           /\ flat entry = [] /\ size_of (shape entry) = 0.
Proof.
  intros Hs Hwf Hlen Hch.
  rewrite (extract_data_to_plot_means data n [c; t]) by done.
  set (per_channel := fun label ch' =>
         pick_channel (mean_of [c; t] (trials_with_label data label_list label)) ch_list ch'
         ≫= fun picked_ch => mret (squeeze picked_ch)).
  assert (Htotal : exists series,
            mapM (fun label => mapM (per_channel label) (ch_to_plot config))
                 (label_to_plot config) = Ok series).
  { apply mapM_total, Forall_forall. intros label _.
    apply mapM_total, Forall_forall. intros ch' _. unfold per_channel.
    destruct (pick_any_channel (mean_of [c; t] (trials_with_label data label_list label))
                c t ch_list ch' eq_refl) as [entry ->].
    - destruct ch_list; [done|]. by destruct Hch.
    - by eexists. }
  destruct Htotal as [series Hseries]. exists series.
  split; [exact Hseries|]. split; [by apply mapM_length in Hseries|].
  intros a b row Ha Hb.
  apply mapM_Ok in Hseries.
  destruct (Forall2_lookup_r _ _ _ _ _ Hseries Ha) as (label & _ & Hrow).
  destruct (mapM_lookup _ _ _ _ _ Hrow Hb) as (entry & Hentry & Hpick).
  exists entry. split; [exact Hentry|].
  unfold per_channel in Hpick.
  destruct (pick_unmatched_channel
              (mean_of [c; t] (trials_with_label data label_list label))
              c t ch_list ch eq_refl Hch) as (picked & Hp & Hflat & rest & Hshape).
  rewrite Hp, bind_Ok in Hpick. injection Hpick as <-.
  by apply (squeeze_empty picked rest).
Qed.

Lemma unmatched_channel_gives_empty_series_witness :
  exists series,
    extract_data_to_plot demo_data (NpArray ["C3"; "C4"]) demo_labels config_plot = Ok series
    /\ length series = 3
    /\ forall a row, series !! a = Some row ->
         exists entry, row !! 1 = Some entry
           /\ flat entry = [] /\ size_of (shape entry) = 0.
Proof.
  destruct (unmatched_channel_gives_empty_series demo_data 3 2 2 (NpArray ["C3"; "C4"])
              demo_labels config_plot "Cz" eq_refl eq_refl eq_refl)
    as (series & Hseries & Hlen & Hempty).
  - split; [reflexivity|]. apply (bool_decide_unpack _). reflexivity.
  - exists series. split; [exact Hseries|]. split; [exact Hlen|].
    intros a row Ha. by apply (Hempty a 1 row Ha).
Defined.

(** With the Python list of names that [get_trial_handmade] returns, the
    comparison [ch_list == ch] is [False] whatever the name, and the series
    of every channel is empty, also of a channel that is in the list. *)
Lemma python_list_of_names_matches_nothing (average : ndarray (option Q)) names ch :
  pick_channel average (PyList names) ch = Ok (mk_ndarray (0 :: shape average) []).
Proof. reflexivity. Qed.

(** ** The pipeline reads what the segmentation wrote *)

(** [download_preprocess_and_visualize], started from a configuration
    without ['sampling_freq'], runs to its end: the frequency it hands to
    [baseline_removal] is the one [get_trial_handmade] has written. *)
Lemma pipeline_reads_written_frequency :
  let stft := fun x (fs nperseg : pyval) => one_row_stft x 0 0 in
  demo_config !! "sampling_freq" = None
  /\ cfg_get "sampling_freq" demo_config = (Raise (KeyError "sampling_freq"), demo_config)
  /\ download_preprocess_and_visualize no_filter Q stft demo_dataset demo_config
     = (Ok tt, <["sampling_freq" := VNum 1%Q]> demo_config).
Proof. repeat split; vm_compute; reflexivity. Qed.

(** * Further properties of the code *)

(** ** Steps that return *)

Lemma st_lift_Ok_inv {S A} (r : result A) (st st1 : S) a :
  st_lift r st = (Ok a, st1) -> r = Ok a /\ st1 = st.
Proof. unfold st_lift. by intros [= -> ->]. Qed.

Lemma getitem_Ok_inv config key v : getitem config key = Ok v -> config !! key = Some v.
Proof. unfold getitem. destruct (config !! key); [by intros [= ->]|discriminate]. Qed.

(** ** [divide_by_event] *)





Lemma slice_bound_0 n : slice_bound n 0 = 0.
Proof. unfold slice_bound. simpl. lia. Qed.





(** An onset that is not before the next one, or a last onset on the last
    sample of the recording or beyond it, raises nothing at the slice: the
    trial of the event is a matrix with all the channels and no sample. *)
Theorem misplaced_onset_gives_empty_trial
    (run : Raw) (events : list Z) (config : gmap string pyval) (L : Z) (i : nat) (e : Z) :
  raw_wf run -> trial_samples config = Ok L ->
  events !! i = Some e -> (0 <= e)%Z ->
  match events !! (i + 1) with
  | Some e' => (0 <= e' <= e)%Z
  | None => (Z.of_nat (n_times run) - 1 <= e)%Z
  end ->
  event_trial (get_data run) events config i = Ok (mk_ndarray [n_channels run; 0] []).
Proof.
  intros Hwf HL He He0 Hnext.
  rewrite (event_trial_spec (get_data run) events config i (n_channels run) (n_times run)
             e L eq_refl (get_data_wf _ Hwf) He HL).
  set (stop := window_stop events i).
  assert (Hw0 : slice_bound (n_times run) stop - slice_bound (n_times run) e = 0).
  { subst stop. unfold window_stop. destruct (events !! (i + 1)) as [e'|].
    - rewrite !slice_bound_nonneg by lia. lia.
    - rewrite slice_bound_last, slice_bound_nonneg by lia. lia. }
  assert (Hw : trial_width (n_times run) e stop L = 0).
  { unfold trial_width. rewrite Hw0. pose proof (slice_bound_le 0 L). lia. }
  rewrite Hw. do 2 f_equal. simpl flat.
  apply nil_length_inv. rewrite (length_concat_uniform 0); [lia|].
  apply Forall_fmap, Forall_forall. intros row Hrow. unfold compose.
  rewrite length_py_slice, length_py_slice.
  assert (Hrow' : length row = n_times run).
  { assert (Hall : Forall (fun y : list Q => length y = n_times run)
                     (blocks (n_channels run) (n_times run) (samples run))).
    { apply blocks_lengths. unfold raw_wf in Hwf. lia. }
    rewrite Forall_forall in Hall. by apply Hall. }
  rewrite Hrow', Hw0. pose proof (slice_bound_le 0 L). lia.
Qed.

Lemma misplaced_onset_gives_empty_trial_witness :
  event_trial (get_data demo_run) [5; 2]%Z (run_config demo_config demo_run) 0
  = Ok (mk_ndarray [2; 0] [])
  /\ event_trial (get_data demo_run) [5; 9]%Z (run_config demo_config demo_run) 1
     = Ok (mk_ndarray [2; 0] []).
Proof.
  split.
  - apply (misplaced_onset_gives_empty_trial demo_run [5; 2]%Z
             (run_config demo_config demo_run) 2%Z 0 5%Z eq_refl eq_refl eq_refl);
      simpl; lia.
  - apply (misplaced_onset_gives_empty_trial demo_run [5; 9]%Z
             (run_config demo_config demo_run) 2%Z 1 9%Z eq_refl eq_refl eq_refl);
      simpl; lia.
Defined.

(** ** [get_trial_handmade] *)

Section HandmadeEdges.

Variable mne_filter : pyval -> pyval -> Raw -> Raw.

Lemma first_pass_raises name run rest config e :
  segment_run mne_filter config run = Raise e ->
  get_trial_handmade mne_filter ((name, run) :: rest) config
  = (Raise e, run_config config run).
Proof.
  intros Hseg. rewrite get_trial_handmade_split. cbn zeta. simpl map. simpl st_for.
  rewrite (st_bind_Raise _ _ config e (run_config config run)); [done|].
  by rewrite run_trials_eq, Hseg.
Qed.

(** A configuration without ['filter_data'], or one that asks for the filter
    and lacks ['fmin'] or ['fmax'], makes the call raise the [KeyError] of
    the missing key in the pass over the first run; by then
    ['sampling_freq'] has been written with the frequency of that run, and
    the caller's configuration keeps it. *)
Theorem get_trial_handmade_missing_filter_keys
    (name : string) (run : Raw) (rest : list (string * Raw))
    (config : gmap string pyval) (key : string) :
  match config !! "filter_data" with
  | None => key = "filter_data"
  | Some filter_data =>
      truthy filter_data = true
      /\ ((config !! "fmin" = None /\ key = "fmin")
          \/ (is_Some (config !! "fmin") /\ config !! "fmax" = None /\ key = "fmax"))
  end ->
  get_trial_handmade mne_filter ((name, run) :: rest) config
  = (Raise (KeyError key), <["sampling_freq" := VNum (sfreq run)]> config).
Proof.
  intros Hkey. apply first_pass_raises.
  unfold segment_run, filtered_run, getitem.
  rewrite !run_config_other by done.
  destruct (config !! "filter_data") as [fd|].
  - destruct Hkey as [Hfd [[Hmin ->]|([lo Hmin] & Hmax & ->)]]; rewrite bind_Ok, Hfd, Hmin.
    + reflexivity.
    + rewrite bind_Ok, Hmax. reflexivity.
  - by subst key.
Qed.

Lemma after_runs_last_run config vars runs outs run :
  Forall2 (fun run out => segment_run mne_filter config run = Ok out) runs outs ->
  last runs = Some run ->
  raw_data_actual_run (after_runs vars runs outs)
  = Some (run_after_filter mne_filter config run).
Proof.
  intros Hseg. revert vars. induction Hseg as [|r out runs outs Hr Hseg IH]; intros vars Hlast;
    [discriminate|].
  destruct runs as [|r' runs'].
  - injection Hlast as <-. inversion Hseg; subst. simpl.
    unfold run_after_filter. unfold segment_run in Hr.
    destruct (filtered_run mne_filter (run_config config r) r) as [run'|]; [|discriminate].
    rewrite bind_Ok in Hr.
    destruct (divide_by_event _ _ _) as [tm|]; [|discriminate].
    rewrite bind_Ok in Hr. by injection Hr as <-.
  - simpl after_runs. apply IH. by rewrite last_cons_cons in Hlast.
Qed.

(** The channel names that [get_trial_handmade] returns are those of the
    last run alone, as it stands after the filter: the names of the runs
    before it are neither returned nor compared. *)
Theorem get_trial_handmade_names_of_last_run
    (raw_data : list (string * Raw)) (config config' : gmap string pyval)
    (tm : ndarray Q) (labels : ndarray Z) (chs : list string) :
  get_trial_handmade mne_filter raw_data config = (Ok (tm, labels, chs), config') ->
  exists run, last (map snd raw_data) = Some run
    /\ chs = ch_names (run_after_filter mne_filter config run).
Proof.
  intros Hcall.
  destruct (last (map snd raw_data)) as [run|] eqn:Hlast.
  2: { apply last_None, fmap_nil_inv in Hlast. subst raw_data. discriminate Hcall. }
  exists run. split; [done|].
  rewrite get_trial_handmade_split in Hcall. cbn zeta in Hcall.
  injection Hcall as Hres _. rewrite loop_result in Hres.
  destruct (mapM (segment_run mne_filter config) (map snd raw_data)) as [outs|] eqn:Hm;
    [|done].
  rewrite !bind_Ok in Hres. apply mapM_Ok in Hm. unfold finish in Hres.
  destruct (np_asarray (trials_matrix_list _)) as [stacked|]; [|done].
  rewrite bind_Ok in Hres.
  destruct (np_asarray (label_list _)) as [lstacked|]; [|done].
  rewrite bind_Ok in Hres.
  destruct (shape_at stacked 2) as [d2|]; [|done]. rewrite bind_Ok in Hres.
  destruct (shape_at stacked 3) as [d3|]; [|done]. rewrite bind_Ok in Hres.
  rewrite (after_runs_last_run config _ _ _ run Hm Hlast) in Hres.
  rewrite bind_Ok in Hres. by injection Hres as _ _ <-.
Qed.

End HandmadeEdges.

Lemma get_trial_handmade_missing_filter_keys_witness :
  get_trial_handmade no_filter [("run_0", demo_run); ("run_1", demo_run2)]
    (delete "filter_data" demo_config)
  = (Raise (KeyError "filter_data"),
     <["sampling_freq" := VNum 1%Q]> (delete "filter_data" demo_config))
  /\ (get_trial_handmade no_filter [("run_0", demo_run)]
        (<["filter_data" := VBool true]> (<["fmin" := VNum 8%Q]> demo_config))).1
     = Raise (KeyError "fmax").
Proof.
  split.
  - by apply (get_trial_handmade_missing_filter_keys no_filter "run_0" demo_run
                [("run_1", demo_run2)] (delete "filter_data" demo_config) "filter_data").
  - rewrite (get_trial_handmade_missing_filter_keys no_filter "run_0" demo_run []
               (<["filter_data" := VBool true]> (<["fmin" := VNum 8%Q]> demo_config)) "fmax");
      [reflexivity|].
    split; [reflexivity|]. right. split; [by eexists|]. by split.
Defined.

Lemma get_trial_handmade_names_of_last_run_witness :
  let other := mk_Raw 2 10 (samples demo_run) 1%Q ["Fz"; "Pz"] (found_events demo_run) in
  exists tm labels config',
    get_trial_handmade no_filter [("run_0", other); ("run_1", demo_run2)] demo_config
    = (Ok (tm, labels, ["C3"; "C4"]), config').
Proof.
  intros other.
  pose (call := get_trial_handmade no_filter [("run_0", other); ("run_1", demo_run2)]
                  demo_config).
  pose (res := match call.1 with
               | Ok r => r
               | Raise _ => (mk_ndarray [] [], mk_ndarray [] [], [])
               end).
  assert (Hcall : call = (Ok (res.1.1, res.1.2, res.2), call.2)) by (vm_compute; reflexivity).
  destruct (get_trial_handmade_names_of_last_run no_filter _ _ _ _ _ _ Hcall)
    as (run & Hlast & Hchs).
  injection Hlast as <-. exists res.1.1, res.1.2, call.2. by rewrite Hcall, Hchs.
Defined.

Lemma np_asarray_ragged {A} (l : list (ndarray A)) i j a b :
  l !! i = Some a -> l !! j = Some b -> shape a <> shape b ->
  np_asarray l = Raise (ValueError "inhomogeneous shape").
Proof.
  intros Hi Hj Hne. destruct l as [|h t]; [discriminate|].
  unfold np_asarray.
  destruct (forallb (fun b0 => bool_decide (shape b0 = shape h)) (h :: t)) eqn:Hall; [|done].
  exfalso. rewrite forallb_forall in Hall.
  assert (Ha : shape a = shape h).
  { eapply bool_decide_eq_true_1, Hall, list_elem_of_In, list_elem_of_lookup_2, Hi. }
  assert (Hb : shape b = shape h).
  { eapply bool_decide_eq_true_1, Hall, list_elem_of_In, list_elem_of_lookup_2, Hj. }
  congruence.
Qed.

Section HandmadeShapes.

Variable mne_filter : pyval -> pyval -> Raw -> Raw.

Lemma filtered_run_goes_through config run :
  filter_keys_present config ->
  exists run', filtered_run mne_filter (run_config config run) run = Ok run'.
Proof.
  unfold filter_keys_present, filtered_run, getitem. intros Hkeys.
  rewrite !run_config_other by done.
  destruct (config !! "filter_data") as [fd|]; [|done].
  rewrite bind_Ok. destruct (truthy fd); [|eauto].
  destruct (Hkeys eq_refl) as [[lo ->] [hi ->]]. rewrite !bind_Ok. eauto.
Qed.

(** A dict of runs none of which has an event, the empty dict among them,
    makes [get_trial_handmade] raise [IndexError]: the stacked tensor has no
    third axis to read the channel count from. *)
Theorem get_trial_handmade_without_events
    (raw_data : list (string * Raw)) (config : gmap string pyval) :
  filter_keys_present config ->
  Forall (fun kv => found_events kv.2 = []) raw_data ->
  (get_trial_handmade mne_filter raw_data config).1 = Raise IndexError.
Proof.
  intros Hkeys Hnone. rewrite get_trial_handmade_split. cbn zeta. cbn [fst].
  rewrite loop_result.
  assert (Hnone' : Forall (fun run => found_events run = []) (map snd raw_data))
    by (apply Forall_fmap; exact Hnone).
  clear Hnone. rename Hnone' into Hnone.
  set (runs := map snd raw_data) in *.
  assert (Houts : exists outs,
            mapM (segment_run mne_filter config) runs = Ok outs
            /\ Forall (fun out => shape out.1 = [0]) outs).
  { clear -Hkeys Hnone. induction Hnone as [|run runs Hrun _ (outs & Hm & Hs)]; [by exists []|].
    destruct (filtered_run_goes_through config run Hkeys) as [run' Hf].
    exists ((mk_ndarray [0] [], run') :: outs). simpl. split; [|by constructor].
    unfold segment_run at 1. rewrite Hf, bind_Ok. unfold run_events. rewrite Hrun.
    simpl. by rewrite Hm. }
  destruct Houts as (outs & Hm & Hshapes).
  rewrite Hm, !bind_Ok.
  destruct (after_runs_fields (mk_trial_vars [] [] 0 None) runs outs
              (eq_sym (mapM_length _ _ _ Hm))) as (Ht & Hl & _).
  simpl in Ht, Hl. unfold finish. rewrite Ht, Hl.
  rewrite (np_asarray_stack (map fst outs) [0]) by (by apply Forall_fmap).
  rewrite bind_Ok.
  rewrite (np_asarray_stack (map label_array runs) [0]).
  - rewrite bind_Ok.
    assert (Hno_axis : shape_at (stack (map fst outs)) 2 = Raise IndexError).
    { destruct outs as [|out outs]; [done|].
      apply Forall_cons_1 in Hshapes as [Hout _].
      unfold shape_at, stack. simpl. by rewrite Hout. }
    by rewrite Hno_axis.
  - apply Forall_fmap. eapply Forall_impl; [exact Hnone|].
    intros run Hrun. unfold compose, label_array, run_labels. simpl. by rewrite Hrun.
Qed.

(** The filter of MNE returns a recording whose samples fill its shape. *)
Hypothesis filter_wf : forall fmin fmax run, raw_wf run -> raw_wf (mne_filter fmin fmax run).

Lemma segment_run_first_axis config run out :
  raw_wf run -> segment_run mne_filter config run = Ok out ->
  shape out.1 !! 0 = Some (length (found_events run)).
Proof.
  intros Hwf Hseg.
  destruct (run_facts mne_filter filter_wf config run out Hwf Hseg) as (Hlen & Hstack & _).
  apply np_asarray_Ok in Hstack as [[Hnil ->]|(s & _ & _ & ->)].
  - rewrite Hnil in Hlen. simpl in *. by rewrite <- Hlen.
  - simpl. by rewrite Hlen.
Qed.

(** Two runs with different numbers of events cannot be stacked: when each
    run alone is cut into trials without error, [get_trial_handmade] raises
    the [ValueError] of [np.asarray] and returns nothing. *)
Theorem get_trial_handmade_unequal_event_counts
    (raw_data : list (string * Raw)) (config : gmap string pyval)
    (i j : nat) (run_i run_j : Raw) :
  Forall (fun kv => raw_wf kv.2) raw_data ->
  Forall (fun kv => exists out, segment_run mne_filter config kv.2 = Ok out) raw_data ->
  map snd raw_data !! i = Some run_i -> map snd raw_data !! j = Some run_j ->
  length (found_events run_i) <> length (found_events run_j) ->
  (get_trial_handmade mne_filter raw_data config).1
  = Raise (ValueError "inhomogeneous shape").
Proof.
  intros Hwf Hsegs Hi Hj Hne. rewrite get_trial_handmade_split. cbn zeta. cbn [fst].
  rewrite loop_result.
  assert (Hwf' : Forall raw_wf (map snd raw_data)) by (apply Forall_fmap; exact Hwf).
  assert (Hsegs' : Forall (fun run => exists out, segment_run mne_filter config run = Ok out)
                     (map snd raw_data)) by (apply Forall_fmap; exact Hsegs).
  clear Hwf Hsegs. rename Hwf' into Hwf. rename Hsegs' into Hsegs.
  set (runs := map snd raw_data) in *.
  destruct (mapM_total _ _ Hsegs) as [outs Hm].
  rewrite Hm, !bind_Ok.
  destruct (after_runs_fields (mk_trial_vars [] [] 0 None) runs outs
              (eq_sym (mapM_length _ _ _ Hm))) as (Ht & _ & _).
  simpl in Ht. unfold finish. rewrite Ht.
  destruct (mapM_lookup _ _ _ _ _ Hm Hi) as (out_i & Hout_i & Hseg_i).
  destruct (mapM_lookup _ _ _ _ _ Hm Hj) as (out_j & Hout_j & Hseg_j).
  rewrite (np_asarray_ragged (map fst outs) i j out_i.1 out_j.1); [done| | |].
  - by rewrite list_lookup_fmap, Hout_i.
  - by rewrite list_lookup_fmap, Hout_j.
  - intros Heq.
    pose proof (segment_run_first_axis config run_i out_i
                  (Forall_lookup_1 _ _ _ _ Hwf Hi) Hseg_i) as Hai.
    pose proof (segment_run_first_axis config run_j out_j
                  (Forall_lookup_1 _ _ _ _ Hwf Hj) Hseg_j) as Haj.
    rewrite Heq in Hai. congruence.
Qed.

End HandmadeShapes.

Lemma get_trial_handmade_without_events_witness :
  let silent := mk_Raw 2 10 (samples demo_run) 1%Q ["C3"; "C4"] [] in
  (get_trial_handmade no_filter [("run_0", silent); ("run_1", silent)] demo_config).1
  = Raise IndexError
  /\ (get_trial_handmade no_filter [] demo_config).1 = Raise IndexError.
Proof.
  intros silent. split.
  - apply get_trial_handmade_without_events;
      [vm_compute; intros H; discriminate H|by repeat constructor].
  - apply get_trial_handmade_without_events;
      [vm_compute; intros H; discriminate H|constructor].
Defined.

Lemma get_trial_handmade_unequal_event_counts_witness :
  let shorter := mk_Raw 2 10 (samples demo_run) 1%Q ["C3"; "C4"] [(0, 0, 7); (3, 0, 8)]%Z in
  (get_trial_handmade no_filter [("run_0", demo_run); ("run_1", shorter)] demo_config).1
  = Raise (ValueError "inhomogeneous shape").
Proof.
  intros shorter.
  apply (get_trial_handmade_unequal_event_counts no_filter (fun _ _ _ H => H)
           [("run_0", demo_run); ("run_1", shorter)] demo_config 0 1 demo_run shorter).
  - by repeat constructor.
  - repeat constructor; by eexists.
  - reflexivity.
  - reflexivity.
  - simpl. lia.
Defined.

(** ** [get_moabb_data_handmade] *)

(** What a call may do to the configuration: nothing, or a write of
    ['sampling_freq'] with the frequency of a run. *)
Lemma st_bind_state {S A B} (R : S -> S -> Prop) (m : stM S A) (k : A -> stM S B) st :
  (forall a b c, R a b -> R b c -> R a c) ->
  R st (m st).2 -> (forall a st1, R st1 (k a st1).2) ->
  R st ((m ≫= k) st).2.
Proof.
  intros Htrans Hm Hk. unfold mbind, stM_bind.
  destruct (m st) as [[a|e] st1] eqn:Hmst; simpl in *; [|done].
  eapply Htrans; [exact Hm|apply Hk].
Qed.


Lemma st_for_invariant {S A B} (I : B -> S -> Prop) (body : B -> A -> stM S B)
    l acc st acc' st' :
  I acc st ->
  (forall acc x st acc1 st1, I acc st -> body acc x st = (Ok acc1, st1) -> I acc1 st1) ->
  st_for body l acc st = (Ok acc', st') -> I acc' st'.
Proof.
  intros Hinit Hstep. revert acc st Hinit.
  induction l as [|x l IH]; intros acc st Hinit Hloop; simpl in Hloop.
  - by injection Hloop as <- <-.
  - apply st_bind_Ok_inv in Hloop as (acc1 & st1 & Hbody & Hrest).
    eapply IH; [|exact Hrest]. eapply Hstep; eassumption.
Qed.

Lemma at_most_written_refl config : at_most_written config config.
Proof. by left. Qed.

Lemma at_most_written_trans a b c :
  at_most_written a b -> at_most_written b c -> at_most_written a c.
Proof.
  intros [->|[r ->]] [->|[r' ->]]; [by left|right; eauto|right; eauto|].
  right. exists r'. apply run_config_twice.
Qed.


Section HandmadeFetch.

Variable mne_filter : pyval -> pyval -> Raw -> Raw.

Lemma get_trial_handmade_at_most_written raw_data config :
  at_most_written config (get_trial_handmade mne_filter raw_data config).2.
Proof.
  rewrite get_trial_handmade_split. cbn zeta. cbn [snd].
  destruct (loop_config mne_filter (map snd raw_data) (mk_trial_vars [] [] 0 None) config)
    as [H|(run & _ & H)]; rewrite H; [by left|right; eauto].
Qed.


Lemma subject_trials_Ok_inv dataset raw_dataset type_dataset vars subject st vars1 st1 :
  subject_trials mne_filter dataset raw_dataset type_dataset vars subject st
  = (Ok vars1, st1) ->
  exists raw_data tm labels chs tm' chs',
    get_trial_handmade mne_filter raw_data st = (Ok (tm, labels, chs), st1)
    /\ (if contains "BNCI2014001" (type_str dataset)
        then slice_axis1 tm 0 22 = Ok tm' /\ chs' = py_slice chs 0 22
        else tm' = tm /\ chs' = chs)
    /\ vars1 = mk_subject_vars (trials_per_subject vars ++ [tm'])
                 (labels_per_subject vars ++ [labels]) (Some chs').
Proof.
  unfold subject_trials. intros H.
  apply st_bind_Ok_inv in H as (sessions & s1 & H1 & H).
  apply st_bind_Ok_inv in H as (raw_data & s2 & H2 & H).
  apply st_bind_Ok_inv in H as ([[tm labels] chs] & s3 & H3 & H).
  apply st_bind_Ok_inv in H as ([tm' chs'] & s4 & H4 & H).
  unfold st_lift in H1, H2, H4. injection H1 as _ <-. injection H2 as _ <-.
  injection H4 as H4 <-. injection H as <- <-.
  exists raw_data, tm, labels, chs, tm', chs'. split; [done|]. split; [|done].
  destruct (contains "BNCI2014001" (type_str dataset)).
  - destruct (slice_axis1 tm 0 22) as [cut|]; [|discriminate].
    rewrite bind_Ok in H4. by injection H4 as <- <-.
  - by injection H4 as <- <-.
Qed.

Lemma subject_trials_at_most_written dataset raw_dataset type_dataset vars subject st :
  at_most_written st
    (subject_trials mne_filter dataset raw_dataset type_dataset vars subject st).2.
Proof.
  unfold subject_trials.
  apply st_bind_state; [apply at_most_written_trans|apply at_most_written_refl|].
  intros sessions s1.
  apply st_bind_state; [apply at_most_written_trans|apply at_most_written_refl|].
  intros raw_data s2.
  apply st_bind_state;
    [apply at_most_written_trans|apply get_trial_handmade_at_most_written|].
  intros [[tm labels] chs] s3.
  apply st_bind_state; [apply at_most_written_trans|apply at_most_written_refl|].
  intros [tm' chs'] s4. apply at_most_written_refl.
Qed.


(** With an empty list of subjects the loop is not entered: the value of
    [type_dataset] is never looked at, not even an unknown one, and the call
    stops at the [return] with [UnboundLocalError] for [ch_list], the
    configuration untouched. *)
Theorem get_moabb_data_handmade_no_subject
    (dataset : Dataset) (type_dataset : string) (config : gmap string pyval)
    (raw_dataset : list (Z * list (string * list (string * Raw)))) :
  config !! "subjects_list" = Some (VInts []) ->
  dataset_get_data dataset (VInts []) = Ok raw_dataset ->
  get_moabb_data_handmade mne_filter dataset type_dataset config
  = (Raise (UnboundLocalError "ch_list"), config).
Proof.
  intros Hsub Hget. unfold get_moabb_data_handmade.
  assert (Hread : cfg_get "subjects_list" config = (Ok (VInts []), config)).
  { unfold cfg_get, st_read, getitem. by rewrite Hsub. }
  erewrite st_bind_Ok; [|exact Hread].
  erewrite st_bind_Ok; [|unfold st_lift; by rewrite Hget].
  erewrite st_bind_Ok; [|exact Hread].
  erewrite st_bind_Ok; [|reflexivity].
  reflexivity.
Qed.

(** For a dataset of the class BNCI2014001, what [get_moabb_data_handmade]
    returns has at most 22 channels: at most 22 channel names, and a channel
    axis of at most 22 in the tensor of the subjects. *)
Theorem get_moabb_data_handmade_bnci_channels
    (dataset : Dataset) (type_dataset : string) (config config' : gmap string pyval)
    (trials : ndarray Q) (labels : ndarray Z) (ch_list : list string) :
  contains "BNCI2014001" (type_str dataset) = true ->
  get_moabb_data_handmade mne_filter dataset type_dataset config
  = (Ok (trials, labels, ch_list), config') ->
  length ch_list <= 22
  /\ forall d, shape trials !! 2 = Some d -> d <= 22.
Proof.
  intros Hbnci Hcall. unfold get_moabb_data_handmade in Hcall.
  apply st_bind_Ok_inv in Hcall as (sl & s1 & _ & Hcall).
  apply st_bind_Ok_inv in Hcall as (raw_dataset & s2 & _ & Hcall).
  apply st_bind_Ok_inv in Hcall as (sl' & s3 & _ & Hcall).
  apply st_bind_Ok_inv in Hcall as (subjects & s4 & _ & Hcall).
  apply st_bind_Ok_inv in Hcall as (vars & s5 & Hloop & Hcall).
  apply st_bind_Ok_inv in Hcall as (trials0 & s6 & H6 & Hcall).
  apply st_bind_Ok_inv in Hcall as (labels0 & s7 & _ & Hcall).
  apply st_bind_Ok_inv in Hcall as (ch_list0 & s8 & H8 & Hcall).
  unfold st_lift in H6, H8. injection H6 as H6 _. injection H8 as H8 _.
  injection Hcall as -> -> -> _.
  assert (Hinv : Forall (fun tm => forall d, shape tm !! 1 = Some d -> d <= 22)
                   (trials_per_subject vars)
                 /\ (forall l, ch_list_var vars = Some l -> length l <= 22)).
  { eapply (st_for_invariant
              (fun vars (st : gmap string pyval) =>
                 Forall (fun tm => forall d, shape tm !! 1 = Some d -> d <= 22)
                   (trials_per_subject vars)
                 /\ (forall l, ch_list_var vars = Some l -> length l <= 22)));
      [| |exact Hloop].
    - split; [constructor|]. by intros l [=].
    - intros acc subject st acc1 st1 [Htms _] Hbody.
      apply subject_trials_Ok_inv in Hbody
        as (raw_data & tm & lb & chs & tm' & chs' & _ & Hcut & ->).
      rewrite Hbnci in Hcut. destruct Hcut as [Hcut ->]. simpl. split.
      + apply Forall_app. split; [done|]. constructor; [|constructor].
        intros d Hd. unfold slice_axis1 in Hcut.
        destruct (shape tm) as [|c [|s rest]]; try discriminate.
        injection Hcut as <-. simpl in Hd. injection Hd as <-.
        rewrite slice_bound_nonneg by lia. lia.
      + intros l [= <-]. rewrite length_py_slice, slice_bound_0.
        rewrite slice_bound_nonneg by lia. lia. }
  destruct Hinv as [Htms Hnames]. split.
  - destruct (ch_list_var vars) as [l|]; [|discriminate].
    injection H8 as <-. by apply Hnames.
  - intros d Hd.
    apply np_asarray_Ok in H6 as [[_ ->]|(s & Hne & Hs & ->)]; [discriminate|].
    simpl in Hd.
    destruct (trials_per_subject vars) as [|tm tms]; [done|].
    apply Forall_cons_1 in Htms as [Htm _]. apply Forall_cons_1 in Hs as [Hstm _].
    apply Htm. by rewrite Hstm.
Qed.

End HandmadeFetch.


Lemma get_moabb_data_handmade_no_subject_witness :
  get_moabb_data_handmade no_filter demo_dataset "validation"
    (<["subjects_list" := VInts []]> demo_config)
  = (Raise (UnboundLocalError "ch_list"), <["subjects_list" := VInts []]> demo_config).
Proof.
  by eapply (get_moabb_data_handmade_no_subject no_filter demo_dataset "validation").
Defined.

Lemma get_moabb_data_handmade_bnci_channels_witness :
  exists trials labels ch_list config',
    get_moabb_data_handmade no_filter demo_dataset "train" demo_config
    = (Ok (trials, labels, ch_list), config')
    /\ length ch_list <= 22 /\ shape trials = [1; 6; 2; 2].
Proof.
  pose (call := get_moabb_data_handmade no_filter demo_dataset "train" demo_config).
  pose (res := match call.1 with
               | Ok r => r
               | Raise _ => (mk_ndarray [] [], mk_ndarray [] [], [])
               end).
  assert (Hcall : call = (Ok (res.1.1, res.1.2, res.2), call.2)) by (vm_compute; reflexivity).
  exists res.1.1, res.1.2, res.2, call.2. split; [exact Hcall|].
  destruct (get_moabb_data_handmade_bnci_channels no_filter demo_dataset "train"
              demo_config _ _ _ _ eq_refl Hcall) as [Hnames _].
  split; [exact Hnames|]. vm_compute. reflexivity.
Defined.

(** ** [get_moabb_data_handmade], subject by subject *)

Lemma resize_wf {A} (zero : A) (a : ndarray A) new_shape : wf (resize zero a new_shape).
Proof.
  unfold wf, resize. simpl. rewrite length_take, length_app, length_replicate. lia.
Qed.

Lemma np_asarray_rows {A} (l : list (ndarray A)) a :
  Forall wf l -> np_asarray l = Ok a ->
  shape a !! 0 = Some (length l)
  /\ forall i b, l !! i = Some b -> np_index a i = Ok b.
Proof.
  intros Hwf H. apply np_asarray_Ok in H as [[-> ->]|(s & _ & Hs & ->)].
  - by split.
  - split; [done|]. intros i b Hi. by apply stack_index.
Qed.

Section HandmadeRows.

Variable mne_filter : pyval -> pyval -> Raw -> Raw.

Lemma get_trial_handmade_result_wf raw_data config tm labels chs config' :
  get_trial_handmade mne_filter raw_data config = (Ok (tm, labels, chs), config') ->
  wf tm /\ wf labels /\ exists n d2 d3, shape tm = [n; d2; d3] /\ shape labels = [n].
Proof.
  unfold get_trial_handmade. intros H.
  apply st_bind_Ok_inv in H as (vars & s1 & _ & H).
  apply st_bind_Ok_inv in H as (tm0 & s2 & _ & H).
  apply st_bind_Ok_inv in H as (lb0 & s3 & _ & H).
  apply st_bind_Ok_inv in H as (d2 & s4 & _ & H).
  apply st_bind_Ok_inv in H as (d3 & s5 & _ & H).
  apply st_bind_Ok_inv in H as (last_run & s6 & _ & H).
  injection H as <- <- _ _.
  split; [apply resize_wf|]. split; [apply resize_wf|]. by eexists _, _, _.
Qed.

Lemma subject_trials_Ok_row dataset raw_dataset type_dataset config vars subject st vars1 st1 :
  at_most_written config st ->
  subject_trials mne_filter dataset raw_dataset type_dataset vars subject st
  = (Ok vars1, st1) ->
  exists tm labels,
    subject_row mne_filter dataset raw_dataset type_dataset config subject tm labels
    /\ wf tm /\ wf labels
    /\ trials_per_subject vars1 = trials_per_subject vars ++ [tm]
    /\ labels_per_subject vars1 = labels_per_subject vars ++ [labels].
Proof.
  unfold subject_trials. intros Hst H.
  apply st_bind_Ok_inv in H as (sessions & s1 & H1 & H).
  apply st_bind_Ok_inv in H as (raw_data & s2 & H2 & H).
  apply st_bind_Ok_inv in H as ([[tm labels] chs] & s3 & H3 & H).
  apply st_bind_Ok_inv in H as ([tm' chs'] & s4 & H4 & H).
  unfold st_lift in H1, H2, H4. injection H1 as H1 <-. injection H2 as H2 <-.
  injection H4 as H4 <-. injection H as <- <-.
  destruct (get_trial_handmade_result_wf _ _ _ _ _ _ H3) as (Hwf & Hlwf & n & d2 & d3 & Hs & _).
  assert (Hwanted : exists wanted, session_of type_dataset = Some wanted
                      /\ dict_getitem sessions wanted wanted = Ok raw_data).
  { unfold session_of. destruct (bool_decide (type_dataset = "train")); [by eexists|].
    destruct (bool_decide (type_dataset = "test")); [by eexists|discriminate]. }
  destruct Hwanted as (wanted & Hwanted & Hsession).
  assert (Hcut : (if contains "BNCI2014001" (type_str dataset)
                  then slice_axis1 tm 0 22 = Ok tm' else tm' = tm) /\ wf tm').
  { destruct (contains "BNCI2014001" (type_str dataset)).
    - destruct (slice_axis1_shape tm n d2 [d3] 0 22 Hs Hwf) as (cut & Hcut & _ & Hcwf).
      rewrite Hcut, bind_Ok in H4. by injection H4 as <- _.
    - by injection H4 as <- _. }
  destruct Hcut as [Hcut Hwf'].
  exists tm', labels. split; [|by repeat split].
  by exists sessions, wanted, raw_data, st, s3, tm, chs.
Qed.

Lemma subject_loop_rows dataset raw_dataset type_dataset config subjects vars st vars' st' :
  at_most_written config st ->
  st_for (subject_trials mne_filter dataset raw_dataset type_dataset) subjects vars st
  = (Ok vars', st') ->
  exists rows,
    trials_per_subject vars' = trials_per_subject vars ++ map fst rows
    /\ labels_per_subject vars' = labels_per_subject vars ++ map snd rows
    /\ Forall2 (fun subject row =>
                  subject_row mne_filter dataset raw_dataset type_dataset config
                    subject row.1 row.2
                  /\ wf row.1 /\ wf row.2)
               subjects rows.
Proof.
  revert vars st. induction subjects as [|subject subjects IH]; intros vars st Hst Hloop.
  - injection Hloop as <- _. exists []. simpl. rewrite !app_nil_r. by repeat split.
  - simpl in Hloop. apply st_bind_Ok_inv in Hloop as (vars1 & st1 & Hbody & Hrest).
    destruct (subject_trials_Ok_row _ _ _ config _ _ _ _ _ Hst Hbody)
      as (tm & labels & Hrow & Hwf & Hlwf & Htrials & Hlabels).
    assert (Hst1 : at_most_written config st1).
    { eapply at_most_written_trans; [exact Hst|].
      pose proof (subject_trials_at_most_written mne_filter dataset raw_dataset type_dataset
                    vars subject st) as Hw.
      by rewrite Hbody in Hw. }
    destruct (IH vars1 st1 Hst1 Hrest) as (rows & Ht & Hl & Hrows).
    exists ((tm, labels) :: rows). simpl.
    rewrite Ht, Hl, Htrials, Hlabels, <- !app_assoc.
    split; [done|]. split; [done|]. by constructor.
Qed.

(** Whenever [get_moabb_data_handmade] returns, the first axis of the
    trials and of the labels has one entry per subject of
    ['subjects_list'], in the order of the list: [trials[i]] and
    [labels[i]] are what [get_trial_handmade] returns for the session of
    the [i]-th subject that [type_dataset] names, the trials cut to the
    first 22 channels for the dataset BNCI2014001. *)
Theorem get_moabb_data_handmade_rows_are_subjects
    (dataset : Dataset) (type_dataset : string) (config config' : gmap string pyval)
    (trials : ndarray Q) (labels : ndarray Z) (ch_list : list string) :
  get_moabb_data_handmade mne_filter dataset type_dataset config
  = (Ok (trials, labels, ch_list), config') ->
  exists subjects raw_dataset,
    config !! "subjects_list" = Some (VInts subjects)
    /\ dataset_get_data dataset (VInts subjects) = Ok raw_dataset
    /\ shape trials !! 0 = Some (length subjects)
    /\ shape labels !! 0 = Some (length subjects)
    /\ forall i subject, subjects !! i = Some subject ->
         exists tm lab,
           np_index trials i = Ok tm /\ np_index labels i = Ok lab
           /\ subject_row mne_filter dataset raw_dataset type_dataset config subject tm lab.
Proof.
  intros Hcall. unfold get_moabb_data_handmade in Hcall.
  apply st_bind_Ok_inv in Hcall as (sl & s1 & H1 & Hcall).
  apply st_bind_Ok_inv in Hcall as (raw_dataset & s2 & H2 & Hcall).
  apply st_bind_Ok_inv in Hcall as (sl' & s3 & H3 & Hcall).
  apply st_bind_Ok_inv in Hcall as (subjects & s4 & H4 & Hcall).
  apply st_bind_Ok_inv in Hcall as (vars & s5 & Hloop & Hcall).
  apply st_bind_Ok_inv in Hcall as (trials0 & s6 & H6 & Hcall).
  apply st_bind_Ok_inv in Hcall as (labels0 & s7 & H7 & Hcall).
  apply st_bind_Ok_inv in Hcall as (chs & s8 & H8 & Hcall).
  unfold cfg_get, st_read, st_lift in *.
  injection H1 as H1 <-. injection H2 as H2 <-. injection H3 as H3 <-.
  injection H4 as H4 <-. injection H6 as H6 <-. injection H7 as H7 <-.
  injection H8 as _ <-. injection Hcall as <- <- _ _.
  apply getitem_Ok_inv in H1, H3. rewrite H1 in H3. injection H3 as <-.
  destruct sl as [| |subjects']; try discriminate. injection H4 as ->.
  destruct (subject_loop_rows _ _ _ config _ _ _ _ _ (at_most_written_refl config) Hloop)
    as (rows & Htrials & Hlabels & Hrows).
  simpl in Htrials, Hlabels. rewrite Htrials in H6. rewrite Hlabels in H7.
  assert (Hlen : length rows = length subjects)
    by (symmetry; eapply Forall2_length, Hrows).
  destruct (np_asarray_rows (map fst rows) trials0) as [Hn Hrow]; [|done|].
  { apply Forall_fmap, Forall_forall. intros row Hin.
    apply list_elem_of_lookup in Hin as [i Hi].
    by destruct (Forall2_lookup_r _ _ _ _ _ Hrows Hi) as (? & _ & _ & ? & _). }
  destruct (np_asarray_rows (map snd rows) labels0) as [Hln Hlrow]; [|done|].
  { apply Forall_fmap, Forall_forall. intros row Hin.
    apply list_elem_of_lookup in Hin as [i Hi].
    by destruct (Forall2_lookup_r _ _ _ _ _ Hrows Hi) as (? & _ & _ & _ & ?). }
  rewrite length_map, Hlen in Hn, Hln.
  exists subjects, raw_dataset. do 4 (split; [done|]).
  intros i subject Hi.
  destruct (Forall2_lookup_l _ _ _ _ _ Hrows Hi) as ([tm lab] & Hrowi & Hsubject & _).
  exists tm, lab. split; [|split; [|exact Hsubject]].
  - apply Hrow. by rewrite list_lookup_fmap, Hrowi.
  - apply Hlrow. by rewrite list_lookup_fmap, Hrowi.
Qed.

End HandmadeRows.


Section HandmadeReturns.

Variable mne_filter : pyval -> pyval -> Raw -> Raw.
Hypothesis filter_wf :
  forall fmin fmax run, raw_wf run -> raw_wf (mne_filter fmin fmax run).
Hypothesis filter_shape :
  forall fmin fmax run,
    n_channels (mne_filter fmin fmax run) = n_channels run
    /\ n_times (mne_filter fmin fmax run) = n_times run.





End HandmadeReturns.

Lemma get_moabb_data_handmade_rows_are_subjects_witness :
  exists trials labels ch_list config' raw_dataset tm lab,
    get_moabb_data_handmade no_filter demo_dataset "test" demo_config
    = (Ok (trials, labels, ch_list), config')
    /\ shape trials !! 0 = Some 1
    /\ np_index trials 0 = Ok tm /\ np_index labels 0 = Ok lab
    /\ subject_row no_filter demo_dataset raw_dataset "test" demo_config 3 tm lab.
Proof.
  pose (call := get_moabb_data_handmade no_filter demo_dataset "test" demo_config).
  pose (res := match call.1 with
               | Ok r => r
               | Raise _ => (mk_ndarray [] [], mk_ndarray [] [], [])
               end).
  assert (Hcall : call = (Ok (res.1.1, res.1.2, res.2), call.2)) by (vm_compute; reflexivity).
  destruct (get_moabb_data_handmade_rows_are_subjects no_filter demo_dataset "test"
              demo_config _ _ _ _ Hcall)
    as (subjects & raw_dataset & Hsubjects & _ & Hn & _ & Hrows).
  injection Hsubjects as <-.
  destruct (Hrows 0 3%Z eq_refl) as (tm & lab & Htm & Hlab & Hrow).
  by exists res.1.1, res.1.2, res.2, call.2, raw_dataset, tm, lab.
Defined.


(** ** Subjects and sessions that the dataset does not hold *)

Lemma dict_getitem_missing {K V} `{EqDecision K} (d : list (K * V)) (k : K) shown :
  k ∉ map fst d -> dict_getitem d k shown = Raise (KeyError shown).
Proof.
  intros Hnot. unfold dict_getitem.
  destruct (list_find (fun kv => kv.1 = k) d) as [[i [k' v]]|] eqn:Hfind; [|done].
  apply list_find_Some in Hfind as (Hi & Hk & _). simpl in Hk. subst k'.
  exfalso. apply Hnot. apply list_elem_of_fmap. exists (k, v). split; [done|].
  eapply list_elem_of_lookup_2, Hi.
Qed.

Section MissingEntries.

Variable mne_filter : pyval -> pyval -> Raw -> Raw.

(** The dict that [dataset.get_data] returns is indexed with the subjects
    of the configuration and then with ['session_T'] or ['session_E']:
    when it does not hold the first subject, [get_moabb_data_handmade]
    raises [KeyError] with that subject, and when the subject is there
    without the session asked for, [KeyError] with the name of the session;
    in both cases the configuration is left as it was. *)
Theorem get_moabb_data_handmade_missing_entry
    (dataset : Dataset) (type_dataset wanted : string) (config : gmap string pyval)
    (subject : Z) (others : list Z)
    (raw_dataset : list (Z * list (string * list (string * Raw)))) :
  config !! "subjects_list" = Some (VInts (subject :: others)) ->
  dataset_get_data dataset (VInts (subject :: others)) = Ok raw_dataset ->
  session_of type_dataset = Some wanted ->
  (subject ∉ map fst raw_dataset ->
   get_moabb_data_handmade mne_filter dataset type_dataset config
   = (Raise (KeyError (pretty subject)), config))
  /\ (forall sessions,
        dict_getitem raw_dataset subject (pretty subject) = Ok sessions ->
        wanted ∉ map fst sessions ->
        get_moabb_data_handmade mne_filter dataset type_dataset config
        = (Raise (KeyError wanted), config)).
Proof.
  intros Hsubjects Hget Hwanted.
  assert (Hstart : forall e,
    subject_trials mne_filter dataset raw_dataset type_dataset (mk_subject_vars [] [] None)
      subject config = (Raise e, config) ->
    get_moabb_data_handmade mne_filter dataset type_dataset config = (Raise e, config)).
  { intros e Hbody. unfold get_moabb_data_handmade.
    unfold mbind at 1 2 3 4 5. unfold stM_bind at 1 2 3 4 5.
    unfold cfg_get, st_read, st_lift at 1 2, getitem. rewrite Hsubjects, Hget. simpl iterate.
    cbv beta iota. simpl st_for. by rewrite (st_bind_Raise _ _ _ _ _ Hbody). }
  split.
  - intros Hnot. apply Hstart. unfold subject_trials.
    apply st_bind_Raise. unfold st_lift. by rewrite dict_getitem_missing.
  - intros sessions Hsessions Hnot. apply Hstart. unfold subject_trials.
    rewrite (st_bind_Ok _ _ _ sessions config) by (unfold st_lift; by rewrite Hsessions).
    apply st_bind_Raise. unfold st_lift. f_equal.
    unfold session_of in Hwanted. destruct (bool_decide (type_dataset = "train")).
    + injection Hwanted as <-. by apply dict_getitem_missing.
    + destruct (bool_decide (type_dataset = "test")); [|done].
      injection Hwanted as <-. by apply dict_getitem_missing.
Qed.

End MissingEntries.

Lemma get_moabb_data_handmade_missing_entry_witness :
  let only_training := mk_Dataset "<class 'moabb.datasets.bnci.BNCI2014001'>"
        (fun subjects => Ok [(3%Z, [("session_T", [("run_0", demo_run)])])]) in
  get_moabb_data_handmade no_filter demo_dataset "train"
    (<["subjects_list" := VInts [4%Z]]> demo_config)
  = (Raise (KeyError "4"), <["subjects_list" := VInts [4%Z]]> demo_config)
  /\ get_moabb_data_handmade no_filter only_training "test" demo_config
     = (Raise (KeyError "session_E"), demo_config).
Proof.
  intros only_training.
  assert (Hfour : <["subjects_list" := VInts [4%Z]]> demo_config !! "subjects_list"
                  = Some (VInts [4%Z])) by apply lookup_insert_eq.
  assert (Hthree : demo_config !! "subjects_list" = Some (VInts [3%Z]))
    by (vm_compute; reflexivity).
  split.
  - destruct (get_moabb_data_handmade_missing_entry no_filter demo_dataset "train" "session_T"
                (<["subjects_list" := VInts [4%Z]]> demo_config) 4%Z []
                [(3%Z, [("session_T", [("run_0", demo_run); ("run_1", demo_run2)]);
                        ("session_E", [("run_0", demo_run2)])])]
                Hfour eq_refl eq_refl) as [Hsubject _].
    apply Hsubject. apply (bool_decide_unpack _). reflexivity.
  - destruct (get_moabb_data_handmade_missing_entry no_filter only_training "test" "session_E"
                demo_config 3%Z [] [(3%Z, [("session_T", [("run_0", demo_run)])])]
                Hthree eq_refl eq_refl) as [_ Hsession].
    apply (Hsession [("session_T", [("run_0", demo_run)])] eq_refl).
    apply (bool_decide_unpack _). reflexivity.
Defined.

(** ** Boolean masks built from names *)

Lemma select_names_length {A} (names : list string) ch (l : list A) :
  length l = length names ->
  length (select (map (fun name => bool_decide (name = ch)) names) l)
  = length (filter (fun name => name = ch) names).
Proof.
  revert l. induction names as [|name names IH]; intros [|x l] Hlen; simpl in *; try done.
  rewrite filter_cons. destruct (decide (name = ch)) as [->|Hne].
  - rewrite bool_decide_eq_true_2 by done. simpl. f_equal. apply IH. lia.
  - rewrite bool_decide_eq_false_2 by done. apply IH. lia.
Qed.

(** ** [get_moabb_data_automatic] *)

Section AutomaticFacts.

Variable D : Type.
Variable paradigm_get_data :
  Paradigm -> D -> pyval -> result (ndarray Q * ndarray string * list string).

Lemma get_moabb_data_automatic_Ok_inv dataset config type_dataset p X' y' p' :
  get_moabb_data_automatic D paradigm_get_data dataset config type_dataset p
  = (Ok (X', y'), p') ->
  exists resample_data filter_data classes subjects X y session wanted,
    config !! "resample_data" = Some resample_data
    /\ config !! "filter_data" = Some filter_data
    /\ config !! "n_classes" = Some classes
    /\ config !! "subjects_list" = Some subjects
    /\ resample p' = (if truthy resample_data then config !! "resample_freq" else resample p)
    /\ fmin p' = (if truthy filter_data then config !! "fmin" else fmin p)
    /\ fmax p' = (if truthy filter_data then config !! "fmax" else fmax p)
    /\ baseline p' = match config !! "baseline" with Some v => Some v | None => baseline p end
    /\ n_classes p' = Some classes
    /\ paradigm_get_data p' dataset subjects = Ok (X, y, session)
    /\ session_of type_dataset = Some wanted
    /\ np_mask X (map (fun s => bool_decide (s = wanted)) session) = Ok X'
    /\ np_mask y (map (fun s => bool_decide (s = wanted)) session) = Ok y'.
Proof.
  intros H. unfold get_moabb_data_automatic in H.
  apply st_bind_Ok_inv in H as (resample_data & p1 & Hrd & H).
  apply st_lift_Ok_inv in Hrd as [Hrd ->]. apply getitem_Ok_inv in Hrd.
  apply st_bind_Ok_inv in H as ([] & p1 & Hresample & H).
  apply st_bind_Ok_inv in H as (filter_data & p2 & Hfd & H).
  apply st_lift_Ok_inv in Hfd as [Hfd ->]. apply getitem_Ok_inv in Hfd.
  apply st_bind_Ok_inv in H as ([] & p2 & Hfilter & H).
  apply st_bind_Ok_inv in H as ([] & p3 & Hbaseline & H).
  apply st_bind_Ok_inv in H as (classes & p4 & Hcl & H).
  apply st_lift_Ok_inv in Hcl as [Hcl ->]. apply getitem_Ok_inv in Hcl.
  apply st_bind_Ok_inv in H as ([] & p4 & Hset & H).
  apply st_bind_Ok_inv in H as (subjects & p5 & Hsub & H).
  apply st_lift_Ok_inv in Hsub as [Hsub ->]. apply getitem_Ok_inv in Hsub.
  apply st_bind_Ok_inv in H as ([[X y] session] & p5 & Hget & H).
  unfold st_read in Hget. injection Hget as Hget <-.
  apply st_bind_Ok_inv in H as (idx & p5 & Hidx & H).
  apply st_lift_Ok_inv in Hidx as [Hidx ->].
  apply st_bind_Ok_inv in H as (X1 & p5 & HX & H).
  apply st_lift_Ok_inv in HX as [HX ->].
  apply st_bind_Ok_inv in H as (idx' & p5 & Hidx' & H).
  apply st_lift_Ok_inv in Hidx' as [Hidx' ->].
  apply st_bind_Ok_inv in H as (y1 & p5 & Hy & H).
  apply st_lift_Ok_inv in Hy as [Hy ->].
  injection H as <- <- <-.
  assert (Hattrs :
    resample p4 = (if truthy resample_data then config !! "resample_freq" else resample p)
    /\ fmin p4 = (if truthy filter_data then config !! "fmin" else fmin p)
    /\ fmax p4 = (if truthy filter_data then config !! "fmax" else fmax p)
    /\ baseline p4 = match config !! "baseline" with Some v => Some v | None => baseline p end
    /\ n_classes p4 = Some classes).
  { injection Hset as <-. simpl.
    assert (Hp3 : resample p3 = resample p2 /\ fmin p3 = fmin p2 /\ fmax p3 = fmax p2
                  /\ baseline p3 = match config !! "baseline" with
                                   | Some v => Some v
                                   | None => baseline p2
                                   end).
    { destruct (config !! "baseline"); by injection Hbaseline as <-. }
    destruct Hp3 as (-> & -> & -> & ->).
    assert (Hp2 : resample p2 = resample p1
                  /\ fmin p2 = (if truthy filter_data then config !! "fmin" else fmin p1)
                  /\ fmax p2 = (if truthy filter_data then config !! "fmax" else fmax p1)
                  /\ baseline p2 = baseline p1).
    { destruct (truthy filter_data); [|by injection Hfilter as <-].
      apply st_bind_Ok_inv in Hfilter as (lo & q & Hlo & Hfilter).
      apply st_lift_Ok_inv in Hlo as [Hlo ->]. apply getitem_Ok_inv in Hlo.
      apply st_bind_Ok_inv in Hfilter as ([] & q & Hq & Hfilter). injection Hq as <-.
      apply st_bind_Ok_inv in Hfilter as (hi & q & Hhi & Hfilter).
      apply st_lift_Ok_inv in Hhi as [Hhi ->]. apply getitem_Ok_inv in Hhi.
      injection Hfilter as <-. simpl. by rewrite Hlo, Hhi. }
    destruct Hp2 as (-> & -> & -> & ->).
    assert (Hp1 : resample p1
                  = (if truthy resample_data then config !! "resample_freq" else resample p)
                  /\ fmin p1 = fmin p /\ fmax p1 = fmax p /\ baseline p1 = baseline p).
    { destruct (truthy resample_data); [|by injection Hresample as <-].
      apply st_bind_Ok_inv in Hresample as (v & q & Hv & Hresample).
      apply st_lift_Ok_inv in Hv as [Hv ->]. apply getitem_Ok_inv in Hv.
      injection Hresample as <-. simpl. by rewrite Hv. }
    by destruct Hp1 as (-> & -> & -> & ->). }
  destruct Hattrs as (Hres & Hmin & Hmax & Hbase & Hcls).
  assert (Hwanted : exists wanted,
            session_of type_dataset = Some wanted
            /\ idx = map (fun s => bool_decide (s = wanted)) session
            /\ idx' = map (fun s => bool_decide (s = wanted)) session).
  { unfold session_of. destruct (bool_decide (type_dataset = "train")).
    - exists "session_T". injection Hidx as <-. by injection Hidx' as <-.
    - destruct (bool_decide (type_dataset = "test")); [|discriminate].
      exists "session_E". injection Hidx as <-. by injection Hidx' as <-. }
  destruct Hwanted as (wanted & Hwanted & -> & ->).
  exists resample_data, filter_data, classes, subjects, X, y, session, wanted.
  repeat (split; [assumption|]). assumption.
Qed.

Lemma np_mask_session {A} (a : ndarray A) (session : list string) wanted :
  shape a !! 0 = Some (length session) ->
  exists a', np_mask a (map (fun s => bool_decide (s = wanted)) session) = Ok a'.
Proof.
  intros Hs. unfold np_mask. destruct (shape a) as [|n rest]; [done|].
  injection Hs as ->. rewrite length_map, Nat.eqb_refl. eauto.
Qed.

Lemma np_mask_session_count {A} (a a' : ndarray A) (session : list string) wanted :
  np_mask a (map (fun s => bool_decide (s = wanted)) session) = Ok a' ->
  shape a' !! 0 = Some (length (filter (fun s => s = wanted) session)).
Proof.
  unfold np_mask. destruct (shape a) as [|n rest]; [done|]. rewrite length_map.
  destruct (Nat.eqb_spec (length session) n) as [<-|]; [|done].
  intros [= <-]. simpl. f_equal. apply select_names_length. by rewrite length_blocks.
Qed.

(** With a configuration that holds the keys the function reads
    (['resample_data'], ['filter_data'], ['n_classes'], ['subjects_list'],
    and ['resample_freq'], ['fmin'], ['fmax'] when the flags ask for them),
    [type_dataset] equal to ['train'] or ['test'], and a [paradigm.get_data]
    that returns trials and labels with one entry per row of its session
    column, [get_moabb_data_automatic] returns, and leaves the paradigm
    with the attributes that the configuration asks for. *)
Theorem get_moabb_data_automatic_returns
    (dataset : D) (config : gmap string pyval) (type_dataset : string) (p : Paradigm)
    (subjects : pyval) (X : ndarray Q) (y : ndarray string) (session : list string)
    (wanted : string) :
  automatic_keys_present config ->
  config !! "subjects_list" = Some subjects ->
  session_of type_dataset = Some wanted ->
  paradigm_get_data (configured config p) dataset subjects = Ok (X, y, session) ->
  shape X !! 0 = Some (length session) -> shape y !! 0 = Some (length session) ->
  exists X' y',
    get_moabb_data_automatic D paradigm_get_data dataset config type_dataset p
    = (Ok (X', y'), configured config p).
Proof.
  intros (Hresample & Hfilter & [classes Hclasses] & _) Hsubjects Hwanted Hget HX Hy.
  unfold filter_keys_present in Hfilter.
  destruct (np_mask_session X session wanted HX) as [X' HX'].
  destruct (np_mask_session y session wanted Hy) as [y' Hy'].
  exists X', y'.
  assert (Hidx : (if bool_decide (type_dataset = "train")
                  then Some (map (fun s => bool_decide (s = "session_T")) session)
                  else if bool_decide (type_dataset = "test")
                  then Some (map (fun s => bool_decide (s = "session_E")) session)
                  else None)
                 = Some (map (fun s => bool_decide (s = wanted)) session)).
  { unfold session_of in Hwanted. destruct (bool_decide (type_dataset = "train")).
    - by injection Hwanted as <-.
    - destruct (bool_decide (type_dataset = "test")); [|done]. by injection Hwanted as <-. }
  unfold get_moabb_data_automatic, configured in *.
  unfold mbind, stM_bind, st_lift, st_read, set_attr, mret, stM_ret, getitem.
  destruct (config !! "resample_data") as [resample_data|] eqn:Hrd; [|done].
  destruct (config !! "filter_data") as [filter_data|] eqn:Hfd; [|done].
  rewrite Hclasses, Hsubjects.
  destruct (truthy resample_data);
    [destruct Hresample as [freq Hfreq]; [done|]; rewrite Hfreq in *|];
    (destruct (truthy filter_data);
     [destruct Hfilter as [[lo Hlo] [hi Hhi]]; [done|]; rewrite Hlo, Hhi in *|]);
    destruct (config !! "baseline"); simpl in *;
    rewrite Hclasses in Hget; rewrite Hget; simpl; rewrite !Hidx, HX'; simpl; rewrite Hy';
    by simpl.
Qed.

(** Whenever [get_moabb_data_automatic] returns, [type_dataset] is
    ['train'] or ['test'], and the trials and labels returned are those that
    [paradigm.get_data] gave for the subjects of the configuration whose
    session is ['session_T'] for ['train'] and ['session_E'] for ['test'],
    in their order; there are as many trials as labels, one for each entry
    of the session column with that name. *)
Theorem get_moabb_data_automatic_selects_session
    (dataset : D) (config : gmap string pyval) (type_dataset : string) (p p' : Paradigm)
    (X' : ndarray Q) (y' : ndarray string) :
  get_moabb_data_automatic D paradigm_get_data dataset config type_dataset p
  = (Ok (X', y'), p') ->
  exists subjects X y session wanted,
    session_of type_dataset = Some wanted
    /\ config !! "subjects_list" = Some subjects
    /\ paradigm_get_data p' dataset subjects = Ok (X, y, session)
    /\ np_mask X (map (fun s => bool_decide (s = wanted)) session) = Ok X'
    /\ np_mask y (map (fun s => bool_decide (s = wanted)) session) = Ok y'
    /\ shape X' !! 0 = Some (length (filter (fun s => s = wanted) session))
    /\ shape y' !! 0 = Some (length (filter (fun s => s = wanted) session)).
Proof.
  intros Hcall.
  destruct (get_moabb_data_automatic_Ok_inv _ _ _ _ _ _ _ Hcall)
    as (rd & fd & classes & subjects & X & y & session & wanted
        & _ & _ & _ & Hsubjects & _ & _ & _ & _ & _ & Hget & Hwanted & HX & Hy).
  exists subjects, X, y, session, wanted. do 5 (split; [assumption|]).
  split; eapply np_mask_session_count; eassumption.
Qed.

(** Whenever [get_moabb_data_automatic] returns, the paradigm object holds
    the attributes that the configuration asks for and no other change:
    [resample] is assigned only when ['resample_data'] is true, [fmin] and
    [fmax] only when ['filter_data'] is true, [baseline] only when the key
    ['baseline'] is there, and [n_classes] always. *)
Theorem get_moabb_data_automatic_configures_paradigm
    (dataset : D) (config : gmap string pyval) (type_dataset : string) (p p' : Paradigm)
    (X' : ndarray Q) (y' : ndarray string) :
  get_moabb_data_automatic D paradigm_get_data dataset config type_dataset p
  = (Ok (X', y'), p') ->
  p' = configured config p.
Proof.
  intros Hcall.
  destruct (get_moabb_data_automatic_Ok_inv _ _ _ _ _ _ _ Hcall)
    as (rd & fd & classes & subjects & X & y & session & wanted
        & Hrd & Hfd & Hclasses & _ & Hresample & Hfmin & Hfmax & Hbaseline & Hn & _).
  destruct p' as [r lo hi b cl]. simpl in *. subst.
  unfold configured. by rewrite Hrd, Hfd, Hclasses.
Qed.

End AutomaticFacts.

Lemma get_moabb_data_automatic_returns_witness :
  exists X' y',
    get_moabb_data_automatic unit fixed_get_data tt automatic_config "test" new_paradigm
    = (Ok (X', y'), configured automatic_config new_paradigm).
Proof.
  apply (get_moabb_data_automatic_returns unit fixed_get_data tt automatic_config "test"
           new_paradigm (VInts [1%Z])
           (mk_ndarray [2; 1; 2] [1; 2; 3; 4]%Q) (mk_ndarray [2] ["left_hand"; "right_hand"])
           ["session_T"; "session_E"] "session_E");
    try reflexivity.
  split; [vm_compute; intros H; discriminate H|].
  split; [vm_compute; intros H; discriminate H|]. split; by eexists.
Defined.

Lemma get_moabb_data_automatic_selects_session_witness :
  exists X' y' p',
    get_moabb_data_automatic unit fixed_get_data tt automatic_config "train" new_paradigm
    = (Ok (X', y'), p')
    /\ shape X' !! 0 = Some 1 /\ shape y' !! 0 = Some 1.
Proof.
  pose (call := get_moabb_data_automatic unit fixed_get_data tt automatic_config "train"
                  new_paradigm).
  pose (res := match call.1 with Ok r => r | Raise _ => (mk_ndarray [] [], mk_ndarray [] []) end).
  assert (Hcall : call = (Ok (res.1, res.2), call.2)) by (vm_compute; reflexivity).
  exists res.1, res.2, call.2. split; [exact Hcall|].
  destruct (get_moabb_data_automatic_selects_session unit fixed_get_data tt automatic_config
              "train" new_paradigm _ _ _ Hcall)
    as (subjects & X & y & session & wanted & Hwanted & _ & Hget & _ & _ & HX & Hy).
  injection Hwanted as <-. injection Hget as _ _ <-. by split.
Defined.

Lemma get_moabb_data_automatic_configures_paradigm_witness :
  exists X' y' p',
    get_moabb_data_automatic unit fixed_get_data tt automatic_config "train" new_paradigm
    = (Ok (X', y'), p')
    /\ n_classes p' = Some (VNum 2%Q) /\ fmin p' = None /\ resample p' = None.
Proof.
  pose (call := get_moabb_data_automatic unit fixed_get_data tt automatic_config "train"
                  new_paradigm).
  pose (res := match call.1 with Ok r => r | Raise _ => (mk_ndarray [] [], mk_ndarray [] []) end).
  assert (Hcall : call = (Ok (res.1, res.2), call.2)) by (vm_compute; reflexivity).
  exists res.1, res.2, call.2. split; [exact Hcall|].
  rewrite (get_moabb_data_automatic_configures_paradigm unit fixed_get_data tt automatic_config
             "train" new_paradigm _ _ _ Hcall).
  by vm_compute.
Defined.

(** ** [compute_stft] on tensors without trials or channels *)

Lemma mapM_const {A B} (f : A -> result B) (l : list A) y :
  (forall x, f x = Ok y) -> mapM f l = Ok (replicate (length l) y).
Proof. intros H. induction l as [|x l IH]; simpl; [done|]. by rewrite H, IH. Qed.

Lemma mapM_replicate {A B} (f : A -> result B) n x y :
  f x = Ok y -> mapM f (replicate n x) = Ok (replicate n y).
Proof. intros H. induction n as [|n IH]; simpl; [done|]. by rewrite H, IH. Qed.

Section SpectralEdges.

Variables F C : Type.
Variable signal_stft : ndarray Q -> F -> F -> ndarray Q * ndarray Q * ndarray C.

(** [compute_stft] walks the first two axes and calls [signal.stft] once
    per trial and channel: a tensor with no trial gives the empty array of
    shape (0,), a tensor with [n > 0] trials and no channel the empty array
    of shape (n, 0), both without a call of [signal.stft]; an array with a
    single axis and at least one entry has no [shape[1]] and raises
    [IndexError], as does an array with no axis. *)
Theorem compute_stft_degenerate_tensors
    (n : nat) (rest : list nat) (values : list Q) (sampling_freq : F) :
  compute_stft F C signal_stft (mk_ndarray (0 :: rest) values) sampling_freq
  = Ok (mk_ndarray [0] [])
  /\ compute_stft F C signal_stft (mk_ndarray (S n :: 0 :: rest) values) sampling_freq
     = Ok (mk_ndarray [S n; 0] [])
  /\ compute_stft F C signal_stft (mk_ndarray [S n] values) sampling_freq = Raise IndexError
  /\ compute_stft F C signal_stft (mk_ndarray [] values) sampling_freq = Raise IndexError.
Proof.
  split; [reflexivity|]. split; [|split; reflexivity].
  unfold compute_stft, shape_at. simpl shape. simpl lookup. cbv beta iota.
  rewrite bind_Ok.
  rewrite (mapM_const _ _ []) by reflexivity. rewrite bind_Ok.
  unfold np_asarray_nested.
  rewrite (mapM_replicate _ _ _ (mk_ndarray [0] [])) by reflexivity. rewrite bind_Ok.
  rewrite length_seq.
  rewrite (np_asarray_uniform _ [0]); [|done|by apply Forall_replicate].
  rewrite length_replicate. do 2 f_equal.
  induction n as [|k IH]; [reflexivity|]. exact IH.
Qed.

End SpectralEdges.

(** ** [extract_data_to_plot] *)

Lemma vsum_length m (vs : list (list Q)) :
  Forall (fun v => length v = m) vs -> length (vsum m vs) = m.
Proof.
  unfold vsum. induction 1 as [|v vs Hv _ IH]; simpl.
  - apply length_replicate.
  - rewrite length_zip_with, Hv, IH. lia.
Qed.


Lemma trials_with_label_lengths data n rest label_list label :
  shape data = n :: rest -> wf data -> length label_list = n ->
  Forall (fun y => length y = size_of rest) (trials_with_label data label_list label).
Proof.
  intros Hs Hwf Hlen. unfold trials_with_label. rewrite Hs, Hlen. simpl tail.
  eapply Forall_impl; [apply select_elem_of|].
  intros y Hy. simpl in Hy.
  assert (Hall : Forall (fun y => length y = size_of rest) (blocks n (size_of rest) (flat data))).
  { apply blocks_lengths. unfold wf in Hwf. rewrite Hs in Hwf. simpl in Hwf. lia. }
  rewrite Forall_forall in Hall. by apply Hall.
Qed.

Lemma mean_of_wf rest picked :
  Forall (fun y => length y = size_of rest) picked -> wf (mean_of rest picked).
Proof.
  intros Hall. unfold wf, mean_of. simpl. rewrite length_map. by apply vsum_length.
Qed.



Lemma size_of_squeeze {A} (a : ndarray A) : size_of (shape (squeeze a)) = size_of (shape a).
Proof.
  unfold squeeze. simpl. induction (shape a) as [|d s IH]; [done|].
  rewrite filter_cons. destruct (decide (d <> 1)) as [Hd|Hd].
  - simpl. by rewrite <- IH.
  - assert (d = 1) as -> by lia. rewrite IH. simpl. lia.
Qed.

Lemma pick_channel_rows (average : ndarray (option Q)) c t ch_list ch :
  shape average = [c; t] -> wf average -> names_fit ch_list c ->
  exists picked,
    pick_channel average ch_list ch = Ok picked
    /\ wf picked
    /\ length (flat picked) = occurrences ch ch_list * t
    /\ Forall (fun x => x ∈ flat average) (flat picked).
Proof.
  intros Hs Hwf Hfit. destruct ch_list as [names|names]; simpl in *.
  - eexists. split; [reflexivity|]. unfold wf. simpl. by split; [|split].
  - unfold np_mask. rewrite Hs, length_map, Hfit, Nat.eqb_refl.
    eexists. split; [reflexivity|]. simpl.
    set (picked := select _ _).
    assert (Hblocks : Forall (fun y => length y = size_of [t]) (blocks c (size_of [t]) (flat average))).
    { apply blocks_lengths. unfold wf in Hwf. rewrite Hs in Hwf. simpl in *. lia. }
    assert (Hpicked : Forall (fun y => length y = size_of [t]) picked).
    { eapply Forall_impl; [apply select_elem_of|]. intros y Hy. simpl in Hy.
      rewrite Forall_forall in Hblocks. by apply Hblocks. }
    assert (Hcount : length picked = length (filter (fun name => name = ch) names)).
    { apply select_names_length. by rewrite length_blocks. }
    assert (Hlen : length (concat picked) = length picked * size_of [t])
      by (by apply length_concat_uniform).
    split; [|split].
    + unfold wf. simpl in *. lia.
    + rewrite Hlen, Hcount. simpl. lia.
    + apply Forall_forall. intros x Hx.
      apply list_elem_of_In, in_concat in Hx as (y & Hy & Hxy).
      apply list_elem_of_In in Hy, Hxy.
      pose proof (select_elem_of (map (fun name => bool_decide (name = ch)) names)
                    (blocks c (size_of [t]) (flat average))) as Hsel.
      rewrite Forall_forall in Hsel. apply Hsel in Hy.
      unfold blocks in Hy. apply list_elem_of_fmap in Hy as (i & -> & _).
      unfold block in Hxy. apply elem_of_take in Hxy as (k & Hk & _).
      rewrite lookup_drop in Hk. eapply list_elem_of_lookup_2, Hk.
Qed.

(** What [extract_data_to_plot] returns for consistent inputs, cell by
    cell. *)
Lemma extract_data_to_plot_cells data n c t ch_list label_list config :
  shape data = [n; c; t] -> wf data -> length label_list = n -> names_fit ch_list c ->
  exists series,
    extract_data_to_plot data ch_list label_list config = Ok series
    /\ Forall2 (fun label row =>
                  Forall2 (fun ch entry =>
                             exists picked,
                               pick_channel
                                 (mean_of [c; t] (trials_with_label data label_list label))
                                 ch_list ch = Ok picked
                               /\ entry = squeeze picked)
                          (ch_to_plot config) row)
               (label_to_plot config) series.
Proof.
  intros Hs Hwf Hlen Hfit.
  rewrite (extract_data_to_plot_means data n [c; t]) by done.
  set (per_channel := fun label ch' =>
         pick_channel (mean_of [c; t] (trials_with_label data label_list label)) ch_list ch'
         ≫= fun picked_ch => mret (squeeze picked_ch)).
  assert (Htotal : exists series,
            mapM (fun label => mapM (per_channel label) (ch_to_plot config))
                 (label_to_plot config) = Ok series).
  { apply mapM_total, Forall_forall. intros label _.
    apply mapM_total, Forall_forall. intros ch' _. unfold per_channel.
    destruct (pick_channel_rows (mean_of [c; t] (trials_with_label data label_list label))
                c t ch_list ch' eq_refl) as (picked & -> & _); [|done|by eexists].
    apply mean_of_wf. by apply (trials_with_label_lengths data n). }
  destruct Htotal as [series Hseries]. exists series. split; [exact Hseries|].
  apply mapM_Ok in Hseries. eapply Forall2_impl; [exact Hseries|].
  intros label row Hrow. simpl in Hrow. apply mapM_Ok in Hrow.
  eapply Forall2_impl; [exact Hrow|].
  intros ch entry Hentry. unfold per_channel in Hentry.
  destruct (pick_channel _ ch_list ch) as [picked|e]; [|discriminate].
  rewrite bind_Ok in Hentry. injection Hentry as <-. eauto.
Qed.

(** For trials of shape (n, c, t), one label per trial and channel names
    that fit, [extract_data_to_plot] returns a grid with one row per label
    of [label_to_plot] and one series per name of [ch_to_plot]; the series
    of a name holds [t] values for each of its occurrences among the
    channel names: none for a name that is not there or for names given
    as a Python list, several rows for a name listed more than once. *)
Theorem extract_data_to_plot_grid
    (data : ndarray Q) (n c t : nat) (ch_list : channel_names)
    (label_list : list Z) (config : plot_config) :
  shape data = [n; c; t] -> wf data -> length label_list = n -> names_fit ch_list c ->
  exists series,
    extract_data_to_plot data ch_list label_list config = Ok series
    /\ length series = length (label_to_plot config)
    /\ forall a row, series !! a = Some row ->
         length row = length (ch_to_plot config)
         /\ forall b ch entry,
              ch_to_plot config !! b = Some ch -> row !! b = Some entry ->
              wf entry /\ length (flat entry) = occurrences ch ch_list * t.
Proof.
  intros Hs Hwf Hlen Hfit.
  destruct (extract_data_to_plot_cells data n c t ch_list label_list config Hs Hwf Hlen Hfit)
    as (series & Hseries & Hcells).
  exists series. split; [exact Hseries|].
  split; [symmetry; eapply Forall2_length, Hcells|].
  intros a row Ha.
  destruct (Forall2_lookup_r _ _ _ _ _ Hcells Ha) as (label & _ & Hrow).
  split; [symmetry; eapply Forall2_length, Hrow|].
  intros b ch entry Hb Hentry.
  destruct (Forall2_lookup_lr _ _ _ _ _ _ Hrow Hb Hentry) as (picked & Hpick & ->).
  destruct (pick_channel_rows (mean_of [c; t] (trials_with_label data label_list label))
              c t ch_list ch eq_refl) as (picked' & Hpick' & Hpwf & Hplen & _); [|done|].
  { apply mean_of_wf. by apply (trials_with_label_lengths data n). }
  rewrite Hpick in Hpick'. injection Hpick' as <-.
  split; [|exact Hplen].
  unfold wf. rewrite size_of_squeeze. exact Hpwf.
Qed.

Lemma extract_data_to_plot_grid_witness :
  exists series,
    extract_data_to_plot demo_data (NpArray ["C3"; "C4"]) demo_labels config_plot = Ok series
    /\ length series = 3
    /\ forall a row, series !! a = Some row ->
         length row = 3
         /\ forall entry, row !! 2 = Some entry -> length (flat entry) = 2.
Proof.
  destruct (extract_data_to_plot_grid demo_data 3 2 2 (NpArray ["C3"; "C4"])
              demo_labels config_plot eq_refl eq_refl eq_refl eq_refl)
    as (series & Hseries & Hlen & Hrows).
  exists series. split; [exact Hseries|]. split; [exact Hlen|].
  intros a row Ha. destruct (Hrows a row Ha) as [Hrow Hentries].
  split; [exact Hrow|].
  intros entry Hentry. by destruct (Hentries 2 "C4" entry eq_refl Hentry) as [_ ->].
Defined.




Lemma trials_with_absent_label data label_list label :
  label ∉ label_list -> trials_with_label data label_list label = [].
Proof.
  intros Hnot. unfold trials_with_label.
  apply select_none, Forall_fmap, Forall_forall. intros l Hl. simpl.
  apply bool_decide_eq_false_2. by intros ->.
Qed.

(** A label of [label_to_plot] that no trial carries raises nothing: the
    average of no trial is [nan], and every value of every series in the
    row of that label is [nan]. *)
Theorem absent_label_gives_nan_series
    (data : ndarray Q) (n c t : nat) (ch_list : channel_names)
    (label_list : list Z) (config : plot_config) (a : nat) (label : Z) :
  shape data = [n; c; t] -> wf data -> length label_list = n -> names_fit ch_list c ->
  label_to_plot config !! a = Some label -> label ∉ label_list ->
  exists series row,
    extract_data_to_plot data ch_list label_list config = Ok series
    /\ series !! a = Some row
    /\ length row = length (ch_to_plot config)
    /\ forall b entry, row !! b = Some entry -> Forall (fun x => x = None) (flat entry).
Proof.
  intros Hs Hwf Hlen Hfit Ha Hnot.
  destruct (extract_data_to_plot_cells data n c t ch_list label_list config Hs Hwf Hlen Hfit)
    as (series & Hseries & Hcells).
  destruct (Forall2_lookup_l _ _ _ _ _ Hcells Ha) as (row & Hrow & Hcols).
  exists series, row. do 2 (split; [done|]).
  split; [symmetry; eapply Forall2_length, Hcols|].
  intros b entry Hentry.
  destruct (Forall2_lookup_r _ _ _ _ _ Hcols Hentry) as (ch & _ & picked & Hpick & ->).
  rewrite trials_with_absent_label in Hpick by done.
  destruct (pick_channel_rows (mean_of [c; t] []) c t ch_list ch eq_refl)
    as (picked' & Hpick' & _ & _ & Hfrom); [by apply mean_of_wf|done|].
  rewrite Hpick in Hpick'. injection Hpick' as <-.
  unfold squeeze. simpl flat. eapply Forall_impl; [exact Hfrom|].
  intros x Hx. simpl in Hx. apply list_elem_of_fmap in Hx as (s & -> & _). reflexivity.
Qed.

Lemma absent_label_gives_nan_series_witness :
  exists series row,
    extract_data_to_plot demo_data (NpArray ["C3"; "C4"]) demo_labels config_plot = Ok series
    /\ series !! 2 = Some row
    /\ length row = 3
    /\ forall b entry, row !! b = Some entry -> Forall (fun x => x = None) (flat entry).
Proof.
  apply (absent_label_gives_nan_series demo_data 3 2 2 (NpArray ["C3"; "C4"]) demo_labels
           config_plot 2 2%Z eq_refl eq_refl eq_refl eq_refl eq_refl).
  apply (bool_decide_unpack _). reflexivity.
Defined.

(** A list of labels whose length is not the number of trials, or a numpy
    array of channel names whose length is not the number of channels,
    makes the boolean index fail: [extract_data_to_plot] raises
    [IndexError] as soon as there is a label (and a channel) to plot. *)
Theorem extract_data_to_plot_length_mismatch
    (data : ndarray Q) (n c t : nat) (ch_list : channel_names)
    (label_list : list Z) (config : plot_config) :
  shape data = [n; c; t] -> label_to_plot config <> [] ->
  length label_list <> n
  \/ (ch_to_plot config <> [] /\ exists names, ch_list = NpArray names /\ length names <> c) ->
  extract_data_to_plot data ch_list label_list config = Raise IndexError.
Proof.
  intros Hs Hlabels Hbad. unfold extract_data_to_plot.
  destruct (label_to_plot config) as [|label labels]; [done|]. clear Hlabels.
  apply mapM_raise_head. unfold np_mask at 1. rewrite Hs, length_map.
  destruct (Nat.eqb_spec (length label_list) n) as [Hlen|Hlen]; [|reflexivity].
  destruct Hbad as [Hbad|(Hchannels & names & -> & Hnames)]; [done|].
  rewrite bind_Ok. unfold mean_axis0. simpl shape. cbv beta iota. rewrite bind_Ok.
  destruct (ch_to_plot config) as [|ch channels]; [done|].
  apply mapM_raise_head. unfold pick_channel, np_mask. simpl shape.
  rewrite length_map. by destruct (Nat.eqb_spec (length names) c).
Qed.

Lemma extract_data_to_plot_length_mismatch_witness :
  extract_data_to_plot demo_data (NpArray ["C3"; "C4"]) [0; 1]%Z config_plot = Raise IndexError
  /\ extract_data_to_plot demo_data (NpArray ["C3"; "Cz"; "C4"]) demo_labels config_plot
     = Raise IndexError.
Proof.
  split.
  - apply (extract_data_to_plot_length_mismatch demo_data 3 2 2); [reflexivity|done|].
    left. simpl. lia.
  - apply (extract_data_to_plot_length_mismatch demo_data 3 2 2); [reflexivity|done|].
    right. split; [done|]. eexists. split; [reflexivity|]. simpl. lia.
Defined.

(** ** [download_preprocess_and_visualize] *)


Section PipelineRuns.

Variable mne_filter : pyval -> pyval -> Raw -> Raw.
Hypothesis filter_wf :
  forall fmin fmax run, raw_wf run -> raw_wf (mne_filter fmin fmax run).
Hypothesis filter_shape :
  forall fmin fmax run,
    n_channels (mne_filter fmin fmax run) = n_channels run
    /\ n_times (mne_filter fmin fmax run) = n_times run.

Variable C : Type.
Variable signal_stft : ndarray Q -> pyval -> pyval -> ndarray Q * ndarray Q * ndarray C.
Hypothesis stft_wf :
  forall x fs nperseg, wf (coefficients C (signal_stft x fs nperseg)).
Hypothesis stft_shape :
  forall x y fs nperseg,
    wf x -> wf y -> shape x = shape y ->
    shape (coefficients C (signal_stft x fs nperseg))
    = shape (coefficients C (signal_stft y fs nperseg)).


End PipelineRuns.

